(** * Subscription synchronisation of the extinguisher tracker

    A shallow embedding of the Stripe integration of the repository:
    - [src/config/subscriptionTiers.js]: the tier catalogue and the limit
      projection ([TIER_CONFIG], [getTierConfig], [getTierLimits]);
    - [functions/index.js]: the two callable functions
      ([createCheckoutSession], [createPortalSession]), the webhook endpoint
      ([stripeWebhook]) with its five handlers, and the helpers
      ([getTierFromPriceId], [getUserIdFromCustomerId], [updateUserLimits]).

    JavaScript strings are [string]; a Firestore document is a finite map
    from field names to values; the [users] collection is a finite map from
    document ids to documents.  An object literal used as a lookup table is a
    finite map over the keys written in the literal.  Asynchronous calls are
    sequenced as written ([await] at every call), so a function is a state
    transformer over [World] that either returns or throws. *)

From Stdlib Require Import ZArith String List Bool Lia.
From stdpp Require Import gmap strings list fin_maps.

Local Open Scope string_scope.

(** ** JavaScript values used by the code *)

(** [!x] on a value that is a string, [undefined] or [null]: the empty
    string and the absent value are falsy. *)
Definition truthy (x : option string) : bool :=
  match x with
  | Some s => negb (String.eqb s "")
  | None => false
  end.

(** [a || b] on such values, with a string default. *)
Definition js_or (a : option string) (b : string) : string :=
  match a with
  | Some s => if String.eqb s "" then b else s
  | None => b
  end.

(** [s.includes(sub)]. *)
Fixpoint includes (s sub : string) : bool :=
  String.prefix sub s ||
  match s with
  | EmptyString => false
  | String _ s' => includes s' sub
  end.

(** A JavaScript number that is a count, or [Infinity]. *)
Inductive JsCount :=
  | Finite (n : N)
  | Infinity.

(** ** src/config/subscriptionTiers.js *)

Module SUBSCRIPTION_TIERS.
Definition BASIC := "basic".
Definition PRO := "pro".
Definition ENTERPRISE := "enterprise".
End SUBSCRIPTION_TIERS.

Module SUBSCRIPTION_STATUS.
Definition TRIALING := "trialing".
Definition ACTIVE := "active".
Definition PAST_DUE := "past_due".
Definition CANCELED := "canceled".
Definition INCOMPLETE := "incomplete".
End SUBSCRIPTION_STATUS.

Record Limits := {
  maxExtinguishers : JsCount;
  photosEnabled : bool;
  maxPhotosPerUnit : N;
  gpsEnabled : bool;
  advancedExportEnabled : bool;
  inspectionHistoryEnabled : bool;
  prioritySupport : bool
}.

Record MonthlyPricing := {
  amount : N;
  interval : string;
  stripePriceId : string
}.

(** [pricing] is [{ monthly: ... }] for the two self-service tiers and
    [{ custom: true }] for enterprise. *)
Inductive Pricing :=
  | Monthly (m : MonthlyPricing)
  | Custom.

Record TierEntry := {
  tier : string;
  name : string;
  pricing : Pricing;
  limits : Limits
}.

(** The two variables of [import.meta.env] the catalogue reads. *)
Record ViteEnv := {
  VITE_STRIPE_PRICE_BASIC_MONTHLY : option string;
  VITE_STRIPE_PRICE_PRO_MONTHLY : option string
}.

Definition basicLimits : Limits :=
  {| maxExtinguishers := Finite 100; photosEnabled := false;
     maxPhotosPerUnit := 0; gpsEnabled := false;
     advancedExportEnabled := false; inspectionHistoryEnabled := false;
     prioritySupport := false |}.

Definition proLimits : Limits :=
  {| maxExtinguishers := Finite 500; photosEnabled := true;
     maxPhotosPerUnit := 5; gpsEnabled := true;
     advancedExportEnabled := true; inspectionHistoryEnabled := true;
     prioritySupport := true |}.

Definition enterpriseLimits : Limits :=
  {| maxExtinguishers := Infinity; photosEnabled := true;
     maxPhotosPerUnit := 10; gpsEnabled := true;
     advancedExportEnabled := true; inspectionHistoryEnabled := true;
     prioritySupport := true |}.

Definition basicEntry (env : ViteEnv) : TierEntry :=
  {| tier := SUBSCRIPTION_TIERS.BASIC; name := "Basic";
     pricing := Monthly
       {| amount := 2900; interval := "month";
          stripePriceId :=
            js_or (VITE_STRIPE_PRICE_BASIC_MONTHLY env) "price_basic_monthly" |};
     limits := basicLimits |}.

Definition proEntry (env : ViteEnv) : TierEntry :=
  {| tier := SUBSCRIPTION_TIERS.PRO; name := "Pro";
     pricing := Monthly
       {| amount := 7900; interval := "month";
          stripePriceId :=
            js_or (VITE_STRIPE_PRICE_PRO_MONTHLY env) "price_pro_monthly" |};
     limits := proLimits |}.

Definition enterpriseEntry : TierEntry :=
  {| tier := SUBSCRIPTION_TIERS.ENTERPRISE; name := "Enterprise";
     pricing := Custom;
     limits := enterpriseLimits |}.

Definition TIER_CONFIG (env : ViteEnv) : gmap string TierEntry :=
  <[SUBSCRIPTION_TIERS.BASIC := basicEntry env]>
  (<[SUBSCRIPTION_TIERS.PRO := proEntry env]>
  (<[SUBSCRIPTION_TIERS.ENTERPRISE := enterpriseEntry]> ∅)).

(** [TIER_CONFIG[tier] || TIER_CONFIG[SUBSCRIPTION_TIERS.BASIC]] *)
Definition getTierConfig (env : ViteEnv) (t : string) : TierEntry :=
  default (basicEntry env) (TIER_CONFIG env !! t).

Definition getTierLimits (env : ViteEnv) (t : string) : Limits :=
  limits (getTierConfig env t).


(** ** functions/index.js: tier derivation *)

Inductive LogLevel := LogInfo | LogWarn | LogError.

Definition LogLine : Type := LogLevel * string.

Definition priceIdToTier : gmap string string :=
  <["price_basic_monthly" := "basic"]>
  (<["price_pro_monthly" := "pro"]> ∅).

(** [getTierFromPriceId(priceId)]: the tier, and what it writes to the
    console. *)
Definition getTierFromPriceId (priceId : string) : string * list LogLine :=
  match priceIdToTier !! priceId with
  | Some t => (t, [])
  | None =>
      if includes priceId "basic" then ("basic", [])
      else if includes priceId "pro" then ("pro", [])
      else ("basic",
            [(LogWarn, "Unknown price ID: " ++ priceId ++ " - defaulting to basic")])
  end.

(** ** Firestore documents and the world the functions run in *)

(** A field value of a [users] document.  [ServerTimestamp] is the
    sentinel [FieldValue.serverTimestamp()], replaced by the server's time
    when the write commits. *)
Inductive FieldValue :=
  | VString (s : string)
  | VTimestamp (millis : Z)
  | VLimits (l : Limits)
  | VNull
  | ServerTimestamp.

#[global] Instance JsCount_eq_dec : EqDecision JsCount.
Proof. solve_decision. Defined.

#[global] Instance Limits_eq_dec : EqDecision Limits.
Proof. solve_decision. Defined.

#[global] Instance FieldValue_eq_dec : EqDecision FieldValue.
Proof. solve_decision. Defined.

Abbreviation Doc := (gmap string FieldValue).

(** [users]: the collection; [commits]: every committed write, oldest
    first, as the document id and the fields written; [console]: the lines
    logged so far. *)
Record World := {
  users : gmap string Doc;
  commits : list (string * Doc);
  console : list LogLine
}.

(** Truthiness of a field read from a document. *)
Definition js_truthy (v : option FieldValue) : bool :=
  match v with
  | Some (VString s) => negb (String.eqb s "")
  | Some VNull | None => false
  | Some _ => true
  end.

Inductive FunctionsErrorCode :=
  | unauthenticated
  | invalid_argument
  | failed_precondition
  | internal.

(** What a function can throw. *)
Inductive Exn :=
  | HttpsError (code : FunctionsErrorCode) (message : string)
  | StripeError
  | FirestoreNotFound
  | TypeError.

(** The result of running a function: it returned, or it threw; either way
    the writes made so far stay. *)
Inductive Outcome (A : Type) :=
  | Returned (a : A) (w : World)
  | Thrown (e : Exn) (w : World).

Arguments Returned {A} a w.
Arguments Thrown {A} e w.

Definition Fn (A : Type) : Type := World → Outcome A.

#[global] Instance Fn_ret : MRet Fn := λ A a w, Returned a w.

#[global] Instance Fn_bind : MBind Fn := λ A B f m w,
  match m w with
  | Returned a w' => f a w'
  | Thrown e w' => Thrown e w'
  end.

Definition throw {A} (e : Exn) : Fn A := λ w, Thrown e w.

(** [try { body } catch (error) { handler }] *)
Definition try_catch {A} (body : Fn A) (handler : Exn → Fn A) : Fn A := λ w,
  match body w with
  | Returned a w' => Returned a w'
  | Thrown e w' => handler e w'
  end.

Definition world_of {A} (o : Outcome A) : World :=
  match o with
  | Returned _ w => w
  | Thrown _ w => w
  end.

Definition console_log (level : LogLevel) (msg : string) : Fn unit := λ w,
  Returned tt {| users := users w; commits := commits w;
                 console := console w ++ [(level, msg)] |}.

(** Runs a pure helper that also logs. *)
Definition logged {A} (r : A * list LogLine) : Fn A := λ w,
  Returned r.1 {| users := users w; commits := commits w;
                  console := console w ++ r.2 |}.

(** A value that must be defined to read a property of it. *)
Definition defined {A} (x : option A) : Fn A :=
  match x with
  | Some a => mret a
  | None => throw TypeError
  end.

(** The result of a call to the payment provider; [None] is a rejected
    call. *)
Definition stripe_call {A} (x : option A) : Fn A :=
  match x with
  | Some a => mret a
  | None => throw StripeError
  end.

(** ** The payment provider *)

Record Subscription := {
  sub_id : string;
  sub_customer : string;
  sub_status : string;
  sub_items : list string;          (* items.data[i].price.id *)
  current_period_start : Z;         (* seconds *)
  current_period_end : Z
}.

Record Session := {
  session_metadata : option (gmap string string);
  session_subscription : option string
}.

Record Invoice := {
  invoice_customer : string;
  invoice_subscription : option string
}.

Record Customer := {
  customer_metadata : option (gmap string string)
}.

(** A verified event: its [type] and the object it carries, whose shape the
    provider fixes by the type.  [OtherEvent t] is an event of any type [t]
    other than the five the endpoint handles; [event_type] gives the type
    string of each. *)
Inductive Event :=
  | CheckoutSessionCompleted (session : Session)
  | CustomerSubscriptionUpdated (subscription : Subscription)
  | CustomerSubscriptionDeleted (subscription : Subscription)
  | InvoicePaymentSucceeded (invoice : Invoice)
  | InvoicePaymentFailed (invoice : Invoice)
  | OtherEvent (type : string).

Definition event_type (e : Event) : string :=
  match e with
  | CheckoutSessionCompleted _ => "checkout.session.completed"
  | CustomerSubscriptionUpdated _ => "customer.subscription.updated"
  | CustomerSubscriptionDeleted _ => "customer.subscription.deleted"
  | InvoicePaymentSucceeded _ => "invoice.payment_succeeded"
  | InvoicePaymentFailed _ => "invoice.payment_failed"
  | OtherEvent t => t
  end.

Record CheckoutParams := {
  cp_customer : FieldValue;
  cp_mode : string;
  cp_price : string;
  cp_success_url : string;
  cp_cancel_url : string;
  cp_metadata_userId : string
}.

Record CheckoutSession := {
  cs_id : string;
  cs_url : string
}.

(** The calls of the [stripe] client the functions make.  A call that
    throws gives [None].  [webhooks.constructEvent] is the library's:
    it checks the signature header against the payload and the secret
    ([verifyHeader]) and only then parses the payload ([parseEvent]). *)
Record Stripe := {
  customers_create : option string → string → option string;
  customers_retrieve : string → option Customer;
  subscriptions_retrieve : option string → option Subscription;
  checkout_sessions_create : CheckoutParams → option CheckoutSession;
  billingPortal_sessions_create : FieldValue → string → option string;
  verifyHeader : string → option string → string → bool;
  parseEvent : string → option Event
}.

Definition constructEvent (stripe : Stripe)
    (rawBody : string) (sig : option string) (secret : string) : option Event :=
  if verifyHeader stripe rawBody sig secret then parseEvent stripe rawBody
  else None.

(** ** functions/index.js *)

Record Auth := {
  uid : string;
  token_email : option string
}.

Record CallableContext := {
  auth : option Auth
}.

Record CheckoutData := {
  priceId : option string;
  successUrl : option string;
  cancelUrl : option string
}.

Record PortalData := {
  returnUrl : option string
}.

Record CheckoutResult := {
  sessionId : string;
  url : string
}.

Record Request := {
  rawBody : string;
  stripe_signature : option string      (* req.headers['stripe-signature'] *)
}.

Record Response := {
  status : nat;
  body : string
}.

(** The first of a list of document ids in the order of a query, which is
    the order of the ids. *)
Definition firstDocId (ids : list string) : option string :=
  foldr (λ k acc, match acc with
                  | None => Some k
                  | Some k' => Some (if String.leb k k' then k else k')
                  end) None ids.

(** [Timestamp.fromMillis(seconds * 1000)] *)
Definition fromSeconds (seconds : Z) : FieldValue :=
  VTimestamp (seconds * 1000).

(** The value a written field takes when the write commits at [now]. *)
Definition resolve (now : Z) (v : FieldValue) : FieldValue :=
  match v with
  | ServerTimestamp => VTimestamp now
  | _ => v
  end.

(** The inline [tierConfig] of [updateUserLimits]. *)
Definition tierConfig : gmap string Limits :=
  <["basic" := basicLimits]>
  (<["pro" := proLimits]>
  (<["enterprise" := enterpriseLimits]> ∅)).

Section Functions.

(** The [stripe] client, [functions.config().stripe.webhook_secret], and
    the server's clock: [serverTime n] is the time at which the write that
    follows [n] committed writes commits. *)
Variable stripe : Stripe.
Variable webhook_secret : string.
Variable serverTime : nat → Z.

(** [admin.firestore().collection('users').doc(id).get()], then [.data()]. *)
Definition doc_get (id : string) : Fn (option Doc) := λ w,
  Returned (users w !! id) w.

(** [admin.firestore().collection('users').doc(id).update(fields)]: fails
    when the document does not exist, otherwise sets the listed fields and
    leaves the others. *)
Definition doc_update (id : string) (fields : Doc) : Fn unit := λ w,
  match users w !! id with
  | None => Thrown FirestoreNotFound w
  | Some d =>
      let written := resolve (serverTime (length (commits w))) <$> fields in
      Returned tt {| users := <[id := written ∪ d]> (users w);
                     commits := commits w ++ [(id, written)];
                     console := console w |}
  end.

(** [collection('users').where(field, '==', v).limit(1).get()]: the id of
    the first matching document, if any. *)
Definition users_where_limit1 (field : string) (v : FieldValue)
    : Fn (option string) := λ w,
  Returned
    (firstDocId
       (map_to_list (filter (λ kd, kd.2 !! field = Some v) (users w))).*1)
    w.

Definition updateUserLimits (userId tier : string) : Fn unit :=
  let limits := default basicLimits (tierConfig !! tier) in
  doc_update userId
    {[ "limits" := VLimits limits; "updatedAt" := ServerTimestamp ]}.

Definition getUserIdFromCustomerId (customerId : string) : Fn (option string) :=
  try_catch
    (found ← users_where_limit1 "stripeCustomerId" (VString customerId);
     match found with
     | Some id => mret (Some id)
     | None =>
         fromStripe ← try_catch
           (customer ← stripe_call (customers_retrieve stripe customerId);
            let firebaseUID := customer_metadata customer ≫= (.!! "firebaseUID") in
            if truthy firebaseUID then mret firebaseUID else mret None)
           (λ stripeError,
              console_log LogError "Error retrieving customer from Stripe:";;
              mret None);
         mret fromStripe
     end)
    (λ error,
       console_log LogError "Error getting userId from customerId:";;
       mret None).

Definition handleCheckoutCompleted (session : Session) : Fn unit :=
  metadata ← defined (session_metadata session);
  let userId := metadata !! "userId" in
  if negb (truthy userId) then
    console_log LogError "No userId in checkout session metadata"
  else
    subscription ← stripe_call
      (subscriptions_retrieve stripe (session_subscription session));
    priceId ← defined (head (sub_items subscription));
    tier ← logged (getTierFromPriceId priceId);
    doc_update (default "" userId)
      {[ "subscriptionStatus" := VString "active";
         "subscriptionTier" := VString tier;
         "stripeSubscriptionId" := VString (sub_id subscription);
         "currentPeriodStart" := fromSeconds (current_period_start subscription);
         "currentPeriodEnd" := fromSeconds (current_period_end subscription);
         "updatedAt" := ServerTimestamp ]};;
    updateUserLimits (default "" userId) tier.

Definition handleSubscriptionUpdated (subscription : Subscription) : Fn unit :=
  userId ← getUserIdFromCustomerId (sub_customer subscription);
  match userId with
  | None =>
      console_log LogError
        ("No userId found for customer: " ++ sub_customer subscription)
  | Some userId =>
      priceId ← defined (head (sub_items subscription));
      tier ← logged (getTierFromPriceId priceId);
      doc_update userId
        {[ "subscriptionTier" := VString tier;
           "subscriptionStatus" := VString (sub_status subscription);
           "currentPeriodStart" := fromSeconds (current_period_start subscription);
           "currentPeriodEnd" := fromSeconds (current_period_end subscription);
           "updatedAt" := ServerTimestamp ]};;
      updateUserLimits userId tier
  end.

Definition handleSubscriptionDeleted (subscription : Subscription) : Fn unit :=
  userId ← getUserIdFromCustomerId (sub_customer subscription);
  match userId with
  | None =>
      console_log LogError
        ("No userId found for customer: " ++ sub_customer subscription)
  | Some userId =>
      doc_update userId
        {[ "subscriptionStatus" := VString "canceled";
           "updatedAt" := ServerTimestamp ]}
  end.

Definition handlePaymentSucceeded (invoice : Invoice) : Fn unit :=
  userId ← getUserIdFromCustomerId (invoice_customer invoice);
  match userId with
  | None => mret tt
  | Some userId =>
      if truthy (invoice_subscription invoice) then
        subscription ← stripe_call
          (subscriptions_retrieve stripe (invoice_subscription invoice));
        doc_update userId
          {[ "currentPeriodStart" := fromSeconds (current_period_start subscription);
             "currentPeriodEnd" := fromSeconds (current_period_end subscription);
             "updatedAt" := ServerTimestamp ]}
      else mret tt
  end.

Definition handlePaymentFailed (invoice : Invoice) : Fn unit :=
  userId ← getUserIdFromCustomerId (invoice_customer invoice);
  match userId with
  | None => mret tt
  | Some userId =>
      doc_update userId
        {[ "subscriptionStatus" := VString "past_due";
           "updatedAt" := ServerTimestamp ]}
  end.

(** The [switch (event.type)] of [stripeWebhook]: one case for each of the
    five type strings of [event_type], and the default. *)
Definition dispatch (event : Event) : Fn unit :=
  match event with
  | CheckoutSessionCompleted session => handleCheckoutCompleted session
  | CustomerSubscriptionUpdated subscription => handleSubscriptionUpdated subscription
  | CustomerSubscriptionDeleted subscription => handleSubscriptionDeleted subscription
  | InvoicePaymentSucceeded invoice => handlePaymentSucceeded invoice
  | InvoicePaymentFailed invoice => handlePaymentFailed invoice
  | OtherEvent type => console_log LogInfo ("Unhandled event type: " ++ type)
  end.

Definition stripeWebhook (req : Request) (w : World) : Response * World :=
  match constructEvent stripe (rawBody req) (stripe_signature req) webhook_secret with
  | None =>
      ({| status := 400; body := "Webhook Error" |},
       world_of (console_log LogError "Webhook signature verification failed:" w))
  | Some event =>
      match dispatch event w with
      | Returned _ w' => ({| status := 200; body := "{received:true}" |}, w')
      | Thrown error w' =>
          ({| status := 500; body := "Webhook handler failed" |},
           world_of (console_log LogError "Error handling webhook:" w'))
      end
  end.

Definition createCheckoutSession (data : CheckoutData) (context : CallableContext)
    : Fn CheckoutResult :=
  match auth context with
  | None =>
      throw (HttpsError unauthenticated
               "User must be logged in to create a checkout session")
  | Some a =>
      let userId := uid a in
      let userEmail := token_email a in
      if negb (truthy (priceId data)) || negb (truthy (successUrl data))
         || negb (truthy (cancelUrl data)) then
        throw (HttpsError invalid_argument
                 "Missing required parameters: priceId, successUrl, cancelUrl")
      else
        try_catch
          (userDoc ← doc_get userId;
           let stored := userDoc ≫= (.!! "stripeCustomerId") in
           customerId ←
             (if negb (js_truthy stored) then
                id ← stripe_call (customers_create stripe userEmail userId);
                doc_update userId {[ "stripeCustomerId" := VString id ]};;
                mret (VString id)
              else mret (default VNull stored));
           session ← stripe_call
             (checkout_sessions_create stripe
                {| cp_customer := customerId;
                   cp_mode := "subscription";
                   cp_price := default "" (priceId data);
                   cp_success_url := default "" (successUrl data);
                   cp_cancel_url := default "" (cancelUrl data);
                   cp_metadata_userId := userId |});
           mret {| sessionId := cs_id session; url := cs_url session |})
          (λ error,
             console_log LogError "Error creating checkout session:";;
             throw (HttpsError internal "Failed to create checkout session"))
  end.

Definition createPortalSession (data : PortalData) (context : CallableContext)
    : Fn string :=
  match auth context with
  | None =>
      throw (HttpsError unauthenticated
               "User must be logged in to access customer portal")
  | Some a =>
      let userId := uid a in
      if negb (truthy (returnUrl data)) then
        throw (HttpsError invalid_argument "Missing required parameter: returnUrl")
      else
        try_catch
          (userDoc ← doc_get userId;
           let customerId := userDoc ≫= (.!! "stripeCustomerId") in
           if negb (js_truthy customerId) then
             throw (HttpsError failed_precondition
                      "No Stripe customer found. Please subscribe first.")
           else
             url ← stripe_call
               (billingPortal_sessions_create stripe
                  (default VNull customerId) (default "" (returnUrl data)));
             mret url)
          (λ error,
             console_log LogError "Error creating portal session:";;
             throw (HttpsError internal "Failed to create portal session"))
  end.

End Functions.

(** ** src/config/subscriptionTiers.js: access checks *)






(** [isSubscriptionActive(status, trialEndsAt = null)], with [now] the
    value of [Date.now()]; a trial end of 0 is falsy like an absent one. *)
Definition isSubscriptionActive (now : Z) (status : string)
    (trialEndsAt : option Z) : bool :=
  if String.eqb status SUBSCRIPTION_STATUS.ACTIVE then true
  else if String.eqb status SUBSCRIPTION_STATUS.TRIALING
          && match trialEndsAt with
             | Some t => negb (t =? 0)%Z
             | None => false
             end
  then (now <? default 0%Z trialEndsAt)%Z
  else false.

(** ** src/services/stripeService.js *)

Module StripeService.

(** An error the client sees: one with a [code], as the callable transport
    raises them, or a plain [Error]. *)
Inductive ClientError :=
  | CodedError (code : string) (message : string)
  | PlainError (message : string).

(** [result.data] of a call. *)
Record ReplyData := {
  reply_url : option string
}.

(** The [catch] block the two wrappers share: three codes get a message of
    their own, any other error is thrown again as it is. *)
Definition rethrow (error : ClientError) : ClientError :=
  match error with
  | CodedError code _ =>
      if String.eqb code "functions/unauthenticated"
      then PlainError "Please sign in to continue."
      else if String.eqb code "functions/permission-denied"
      then PlainError "You do not have permission to perform this action."
      else if String.eqb code "functions/unavailable"
      then PlainError "Service temporarily unavailable. Please try again later."
      else error
  | PlainError _ => error
  end.

(** The body of the [try] after the call returned [result]. *)
Definition urlOf (data : option ReplyData) : ClientError + string :=
  match data with
  | Some d =>
      if truthy (reply_url d) then inr (default "" (reply_url d))
      else inl (rethrow (PlainError "Invalid response from server"))
  | None => inl (rethrow (PlainError "Invalid response from server"))
  end.

(** The data [createCheckoutSession(priceId, userId)] sends to the callable;
    [origin] is [window.location.origin]. *)
Definition checkoutRequest (origin : string) (priceId : option string)
    : CheckoutData :=
  {| priceId := priceId;
     successUrl := Some (origin ++ "/app?checkout=success");
     cancelUrl := Some (origin ++ "/signup?plan=canceled") |}.

Definition createCheckoutSession
    (createCheckout : CheckoutData → ClientError + option ReplyData)
    (origin : string) (priceId : option string) : ClientError + string :=
  match createCheckout (checkoutRequest origin priceId) with
  | inl error => inl (rethrow error)
  | inr data => urlOf data
  end.

Definition createPortalSession
    (createPortal : PortalData → ClientError + option ReplyData)
    (returnUrl : option string) : ClientError + string :=
  match createPortal {| returnUrl := returnUrl |} with
  | inl error => inl (rethrow error)
  | inr data => urlOf data
  end.

End StripeService.

(** ** src/pages/SignupPage.jsx *)

Module SignupPage.

(** [searchParams.get('plan') || 'pro'] *)
Definition planParam (plan : option string) : string := js_or plan "pro".

(** [['basic', 'pro'].includes(selectedPlan) ? selectedPlan : 'pro'] *)
Definition validPlan (selectedPlan : string) : string :=
  if String.eqb selectedPlan "basic" || String.eqb selectedPlan "pro"
  then selectedPlan else "pro".

Definition planConfig (env : ViteEnv) (selectedPlan : string) : option TierEntry :=
  TIER_CONFIG env
    !! (if String.eqb (validPlan selectedPlan) "basic"
        then SUBSCRIPTION_TIERS.BASIC else SUBSCRIPTION_TIERS.PRO).

Record Form := {
  email : string;
  password : string;
  confirmPassword : string;
  selectedPlan : string
}.

(** What [createUserWithEmailAndPassword] gives: the new user, or an error
    with its [code] and [message]. *)
Record AuthUser := {
  user_uid : string;
  user_email : option string
}.

Record AuthError := {
  error_code : string;
  error_message : option string
}.

(** The document written to [users/<uid>]. *)
Record UserDoc := {
  userId : string;
  doc_email : option string;
  createdAt : FieldValue;
  subscriptionTier : string;
  subscriptionStatus : string;
  trialStartedAt : FieldValue;
  trialEndsAt : Z;
  doc_limits : Limits;
  usage_extinguisherCount : N;
  usage_lastUpdated : FieldValue;
  lastLoginAt : FieldValue;
  updatedAt : FieldValue
}.

(** How a submission ends: an error shown in the form; an exception that
    nothing catches; or the account created, after which the document is
    written and the browser is sent to checkout with a price. *)
Inductive Submission :=
  | SetError (message : string)
  | Uncaught
  | WriteAndRedirect (userDoc : UserDoc) (priceId : string).

(** The branches of the [catch] of [handleSubmit] on an error of account
    creation. *)
Definition errorMessage (error : AuthError) : string :=
  if String.eqb (error_code error) "auth/email-already-in-use"
  then "An account with this email already exists. Please sign in instead."
  else if String.eqb (error_code error) "auth/invalid-email"
  then "Please enter a valid email address."
  else if String.eqb (error_code error) "auth/weak-password"
  then "Password is too weak. Please choose a stronger password."
  else js_or (error_message error)
         "An error occurred during signup. Please try again.".

(** [handleSubmit], up to the two effects it ends with.  [createUser] is
    [createUserWithEmailAndPassword(auth, _, _)]; [trialEnd] is the date 30
    days from now. *)
Definition handleSubmit (env : ViteEnv)
    (createUser : string → string → AuthError + AuthUser) (trialEnd : Z)
    (form : Form) : Submission :=
  if (String.length (password form) <? 6)%nat then
    SetError "Password must be at least 6 characters"
  else if negb (String.eqb (password form) (confirmPassword form)) then
    SetError "Passwords do not match"
  else
    match planConfig env (selectedPlan form) with
    | None => Uncaught
    | Some config =>
        match pricing config with
        | Custom => Uncaught
        | Monthly monthly =>
            if negb (truthy (Some (stripePriceId monthly))) then
              SetError "Invalid plan selected. Please contact support."
            else
              match createUser (email form) (password form) with
              | inl error => SetError (errorMessage error)
              | inr user =>
                  WriteAndRedirect
                    {| userId := user_uid user;
                       doc_email := user_email user;
                       createdAt := ServerTimestamp;
                       subscriptionTier := validPlan (selectedPlan form);
                       subscriptionStatus := "trialing";
                       trialStartedAt := ServerTimestamp;
                       trialEndsAt := trialEnd;
                       doc_limits :=
                         {| maxExtinguishers := maxExtinguishers (limits config);
                            photosEnabled := photosEnabled (limits config);
                            maxPhotosPerUnit := maxPhotosPerUnit (limits config);
                            gpsEnabled := gpsEnabled (limits config);
                            advancedExportEnabled :=
                              advancedExportEnabled (limits config);
                            inspectionHistoryEnabled :=
                              inspectionHistoryEnabled (limits config);
                            prioritySupport := prioritySupport (limits config) |};
                       usage_extinguisherCount := 0;
                       usage_lastUpdated := ServerTimestamp;
                       lastLoginAt := ServerTimestamp;
                       updatedAt := ServerTimestamp |}
                    (stripePriceId monthly)
              end
        end
    end.

End SignupPage.

(** ** Derived notions used to state the properties *)


(** The provider with another parser of event payloads. *)
Definition with_parseEvent (s : Stripe) (parse : string → option Event) : Stripe :=
  {| customers_create := customers_create s;
     customers_retrieve := customers_retrieve s;
     subscriptions_retrieve := subscriptions_retrieve s;
     checkout_sessions_create := checkout_sessions_create s;
     billingPortal_sessions_create := billingPortal_sessions_create s;
     verifyHeader := verifyHeader s;
     parseEvent := parse |}.

(** What the query of [getUserIdFromCustomerId] reads of the collection. *)
Definition customerIndex (u : gmap string Doc) : gmap string (option FieldValue) :=
  (λ d, d !! "stripeCustomerId") <$> u.

(** The writes a run added to the log. *)
Definition new_commits (before after : World) : list (string * Doc) :=
  drop (length (commits before)) (commits after).

(** The effect of one committed write, and of a run of them, on the
    collection. *)
Definition apply_commit (u : gmap string Doc) (c : string * Doc)
    : gmap string Doc :=
  alter (λ d, c.2 ∪ d) c.1 u.

Definition replay (cs : list (string * Doc)) (u : gmap string Doc)
    : gmap string Doc :=
  foldl apply_commit u cs.

(** The stored limits are the projection of the stored tier. *)
Definition limits_consistent (env : ViteEnv) (d : Doc) : Prop :=
  ∀ t, d !! "subscriptionTier" = Some (VString t) →
       d !! "limits" = Some (VLimits (getTierLimits env t)).

(** A write sets the tier to [t]. *)
Definition writes_tier (c : string * Doc) (t : string) : Prop :=
  c.2 !! "subscriptionTier" = Some (VString t).

(** Every write of the limits directly follows a write of the tier to the
    same document, and carries that tier's projection. *)
Definition limits_follow_tier (env : ViteEnv) (cs : list (string * Doc)) : Prop :=
  ∀ i c, cs !! i = Some c → is_Some (c.2 !! "limits") →
    ∃ j c0 t, i = S j ∧ cs !! j = Some c0 ∧ c0.1 = c.1 ∧ writes_tier c0 t
              ∧ c.2 !! "limits" = Some (VLimits (getTierLimits env t)).

(** What the transition from [w] to [w'] keeps of the limits invariant:
    a record that was consistent stays so; a record whose tier was written
    is consistent; limits are written only after the tier; and the
    collection is the old one with the new writes applied in order. *)
Definition limits_kept (env : ViteEnv) (w w' : World) : Prop :=
  (∀ userId d d', users w !! userId = Some d → users w' !! userId = Some d' →
     limits_consistent env d → limits_consistent env d')
  ∧ (∀ c d', c ∈ new_commits w w' → is_Some (c.2 !! "subscriptionTier") →
     users w' !! c.1 = Some d' → limits_consistent env d')
  ∧ limits_follow_tier env (new_commits w w')
  ∧ users w' = replay (new_commits w w') (users w).

(** The three shapes of what a handler writes. *)
Definition wrote_nothing (w w' : World) : Prop :=
  users w' = users w ∧ commits w' = commits w.

(** One write, which touches neither the tier nor the limits. *)
Definition wrote_once (w w' : World) : Prop :=
  ∃ userId d U,
    users w !! userId = Some d
    ∧ U !! "subscriptionTier" = None ∧ U !! "limits" = None
    ∧ users w' = <[userId := U ∪ d]> (users w)
    ∧ commits w' = (commits w ++ [(userId, U)])%list.

(** Two writes to one document: the tier, then that tier's limits. *)
Definition wrote_twice (w w' : World) : Prop :=
  ∃ userId d U L t,
    users w !! userId = Some d
    ∧ (t = "basic" ∨ t = "pro")
    ∧ U !! "subscriptionTier" = Some (VString t) ∧ U !! "limits" = None
    ∧ L !! "subscriptionTier" = None
    ∧ L !! "limits" = Some (VLimits (default basicLimits (tierConfig !! t)))
    ∧ users w' = <[userId := L ∪ (U ∪ d)]> (users w)
    ∧ commits w' = (commits w ++ [(userId, U); (userId, L)])%list.

(** A known event whose user the handler fails to resolve. *)
Definition unresolved (stripe : Stripe) (event : Event) (w : World) : Prop :=
  match event with
  | CheckoutSessionCompleted session =>
      ∃ metadata, session_metadata session = Some metadata
                  ∧ truthy (metadata !! "userId") = false
  | CustomerSubscriptionUpdated subscription
  | CustomerSubscriptionDeleted subscription =>
      ∃ w1, getUserIdFromCustomerId stripe (sub_customer subscription) w
            = Returned None w1
  | InvoicePaymentSucceeded invoice
  | InvoicePaymentFailed invoice =>
      ∃ w1, getUserIdFromCustomerId stripe (invoice_customer invoice) w
            = Returned None w1
  | OtherEvent _ => False
  end.

(** The fields of a record the webhook handlers write. *)
Definition billingFields : gset string :=
  list_to_set
    [ "subscriptionStatus"; "subscriptionTier"; "stripeSubscriptionId";
      "currentPeriodStart"; "currentPeriodEnd"; "limits"; "updatedAt" ].

(** From [w] to [w'] no document appears or disappears, only the document
    [u] may differ, and it differs at most in the fields [allowed]. *)
Definition changes_only (u : string) (allowed : gset string) (w w' : World)
    : Prop :=
  dom (users w') = dom (users w)
  ∧ ∀ id d', users w' !! id = Some d' →
      ∃ d, users w !! id = Some d
           ∧ (id ≠ u → d' = d)
           ∧ ∀ f, f ∉ allowed → d' !! f = d !! f.

(** A document without its last-write timestamp. *)
Definition without_updatedAt (d : Doc) : Doc := delete "updatedAt" d.

(** ** Concrete inputs *)

Module Demo.

Definition env : ViteEnv :=
  {| VITE_STRIPE_PRICE_BASIC_MONTHLY := None;
     VITE_STRIPE_PRICE_PRO_MONTHLY := None |}.

Definition proSubscription : Subscription :=
  {| sub_id := "sub_1"; sub_customer := "cus_1"; sub_status := "active";
     sub_items := ["price_pro_monthly"];
     current_period_start := 1700000000; current_period_end := 1702592000 |}.

(** A subscription of a customer nobody knows. *)
Definition strayedSubscription : Subscription :=
  {| sub_id := "sub_9"; sub_customer := "cus_9"; sub_status := "active";
     sub_items := ["price_basic_monthly"];
     current_period_start := 1700000000; current_period_end := 1702592000 |}.

Definition lapsedSubscription : Subscription :=
  {| sub_id := "sub_3"; sub_customer := "cus_3"; sub_status := "canceled";
     sub_items := ["price_pro_monthly"];
     current_period_start := 1690000000; current_period_end := 1692592000 |}.

(** A provider that knows two customers and one live subscription, offers
    the two catalogue prices, and accepts a signature equal to the secret. *)
Definition stripe : Stripe :=
  {| customers_create := λ email userId, Some "cus_new";
     customers_retrieve := λ id,
       if String.eqb id "cus_1"
       then Some {| customer_metadata := Some {[ "firebaseUID" := "u1" ]} |}
       else if String.eqb id "cus_3"
       then Some {| customer_metadata := Some {[ "firebaseUID" := "u3" ]} |}
       else None;
     subscriptions_retrieve := λ id,
       match id with
       | Some id => if String.eqb id "sub_1" then Some proSubscription else None
       | None => None
       end;
     checkout_sessions_create := λ p,
       if String.eqb (cp_price p) "price_basic_monthly"
          || String.eqb (cp_price p) "price_pro_monthly"
       then Some {| cs_id := "cs_1"; cs_url := "https://checkout/cs_1" |}
       else None;
     billingPortal_sessions_create := λ customer return_url,
       Some "https://portal/1";
     verifyHeader := λ payload header secret,
       match header with
       | Some h => String.eqb h secret
       | None => false
       end;
     parseEvent := λ payload,
       if String.eqb payload "deleted"
       then Some (CustomerSubscriptionDeleted proSubscription)
       else if String.eqb payload "strayed"
       then Some (CustomerSubscriptionUpdated strayedSubscription)
       else if String.eqb payload "new_kind"
       then Some (OtherEvent "customer.created")
       else None |}.


Definition secret : string := "whsec_test".

Definition clock (n : nat) : Z := 1000 + Z.of_nat n.

(** A user on the basic tier who has subscribed ... *)
Definition subscriber : Doc :=
  {[ "email" := VString "a@example.com";
     "stripeCustomerId" := VString "cus_1";
     "subscriptionTier" := VString "basic";
     "subscriptionStatus" := VString "active";
     "limits" := VLimits basicLimits;
     "updatedAt" := VTimestamp 5 ]}.

(** ... and one who has only signed up. *)
Definition newcomer : Doc :=
  {[ "email" := VString "b@example.com";
     "subscriptionTier" := VString "pro";
     "subscriptionStatus" := VString "trialing";
     "limits" := VLimits proLimits;
     "updatedAt" := VTimestamp 7 ]}.

(** ... and one whose subscription has already been canceled. *)
Definition lapsed : Doc :=
  {[ "email" := VString "c@example.com";
     "stripeCustomerId" := VString "cus_3";
     "stripeSubscriptionId" := VString "sub_3";
     "subscriptionTier" := VString "pro";
     "subscriptionStatus" := VString "canceled";
     "limits" := VLimits proLimits;
     "updatedAt" := VTimestamp 9 ]}.

Definition world : World :=
  {| users := {[ "u1" := subscriber; "u2" := newcomer; "u3" := lapsed ]};
     commits := [];
     console := [] |}.

Definition caller (id : string) : CallableContext :=
  {| auth := Some {| uid := id; token_email := Some "x@example.com" |} |}.

Definition checkoutSession : Session :=
  {| session_metadata := Some {[ "userId" := "u1" ]};
     session_subscription := Some "sub_1" |}.

Definition invoice : Invoice :=
  {| invoice_customer := "cus_1"; invoice_subscription := Some "sub_1" |}.

Definition forgedRequest : Request :=
  {| rawBody := "deleted"; stripe_signature := Some "forged" |}.

Definition newKindRequest : Request :=
  {| rawBody := "new_kind"; stripe_signature := Some "whsec_test" |}.

Definition strayedRequest : Request :=
  {| rawBody := "strayed"; stripe_signature := Some "whsec_test" |}.

Definition portalData : PortalData :=
  {| returnUrl := Some "https://app.example.com/account" |}.



Definition signupForm : SignupPage.Form :=
  {| SignupPage.email := "d@example.com";
     SignupPage.password := "s3cret!";
     SignupPage.confirmPassword := "s3cret!";
     SignupPage.selectedPlan := "enterprise" |}.

Definition createUser (email password : string)
    : SignupPage.AuthError + SignupPage.AuthUser :=
  if String.eqb email "a@example.com"
  then inl {| SignupPage.error_code := "auth/email-already-in-use";
              SignupPage.error_message := None |}
  else inr {| SignupPage.user_uid := "u4";
              SignupPage.user_email := Some email |}.

End Demo.

(** * Properties *)

(** ** Strings and tables *)

Lemma append_cons (a : Ascii.ascii) (s t : string) :
  String a s ++ t = String a (s ++ t).
Proof. reflexivity. Qed.




Lemma priceIdToTier_lookup (p t : string) :
  priceIdToTier !! p = Some t ↔
  (p = "price_basic_monthly" ∧ t = "basic") ∨ (p = "price_pro_monthly" ∧ t = "pro").
Proof.
  unfold priceIdToTier. rewrite !lookup_insert, lookup_empty.
  repeat case_decide; subst; intuition congruence.
Qed.

(** The table inlined in [updateUserLimits] is the catalogue's. *)
Lemma tierConfig_projects (env : ViteEnv) (t : string) :
  default basicLimits (tierConfig !! t) = getTierLimits env t.
Proof.
  unfold getTierLimits, getTierConfig, TIER_CONFIG, tierConfig,
    SUBSCRIPTION_TIERS.BASIC, SUBSCRIPTION_TIERS.PRO, SUBSCRIPTION_TIERS.ENTERPRISE.
  rewrite !lookup_insert, !lookup_empty.
  repeat case_decide; reflexivity.
Qed.

Lemma getTierFromPriceId_tiers (p : string) :
  (getTierFromPriceId p).1 = "basic" ∨ (getTierFromPriceId p).1 = "pro".
Proof.
  unfold getTierFromPriceId.
  destruct (priceIdToTier !! p) as [t|] eqn:E.
  - apply priceIdToTier_lookup in E as [[_ ->]|[_ ->]]; auto.
  - destruct (includes p "basic"); [by left|].
    destruct (includes p "pro"); [by right | by left].
Qed.


Example getTierFromPriceId_exact :
  getTierFromPriceId "price_pro_monthly" = ("pro", []).
Proof. reflexivity. Qed.

Example getTierFromPriceId_substring :
  getTierFromPriceId "price_basic_yearly" = ("basic", []).
Proof. reflexivity. Qed.

Example getTierFromPriceId_unknown :
  getTierFromPriceId "price_1Nxyz"
  = ("basic", [(LogWarn, "Unknown price ID: price_1Nxyz - defaulting to basic")]).
Proof. reflexivity. Qed.

Example getTierFromPriceId_enterprise :
  getTierFromPriceId "price_enterprise_monthly"
  = ("basic",
     [(LogWarn, "Unknown price ID: price_enterprise_monthly - defaulting to basic")]).
Proof. reflexivity. Qed.

(** ** The store operations *)

Section Store.

Variable stripe : Stripe.
Variable serverTime : nat → Z.

Lemma doc_update_found (id : string) (fields d : Doc) (w : World) :
  users w !! id = Some d →
  doc_update serverTime id fields w
  = Returned tt
      {| users := <[id := (resolve (serverTime (length (commits w))) <$> fields) ∪ d]>
                    (users w);
         commits := commits w
                    ++ [(id, resolve (serverTime (length (commits w))) <$> fields)];
         console := console w |}.
Proof. intros H. unfold doc_update. by rewrite H. Qed.

Lemma doc_update_missing (id : string) (fields : Doc) (w : World) :
  users w !! id = None →
  doc_update serverTime id fields w = Thrown FirestoreNotFound w.
Proof. intros H. unfold doc_update. by rewrite H. Qed.

(** Resolving the user of a customer never throws and writes nothing. *)
Lemma getUserIdFromCustomerId_returns (c : string) (w : World) :
  ∃ r w1, getUserIdFromCustomerId stripe c w = Returned r w1
          ∧ users w1 = users w ∧ commits w1 = commits w.
Proof.
  unfold getUserIdFromCustomerId, try_catch, users_where_limit1, stripe_call,
    console_log, throw, mbind, Fn_bind, mret, Fn_ret.
  destruct (firstDocId _) as [id|]; [by eauto|].
  destruct (customers_retrieve stripe c) as [customer|]; simpl; [|by eauto].
  destruct (truthy _); by eauto.
Qed.

Lemma getUserIdFromCustomerId_store (c : string) (w w1 : World) r :
  getUserIdFromCustomerId stripe c w = Returned r w1 →
  users w1 = users w ∧ commits w1 = commits w.
Proof.
  intros H. destruct (getUserIdFromCustomerId_returns c w) as (r' & w' & E & ? & ?).
  rewrite E in H. by simplify_eq.
Qed.

End Store.

(** ** The handlers, case by case *)

Section Handlers.

Variable stripe : Stripe.
Variable serverTime : nat → Z.

Lemma handleSubscriptionDeleted_resolved
    (subscription : Subscription) (w w1 : World) (userId : string) (d : Doc) :
  getUserIdFromCustomerId stripe (sub_customer subscription) w
    = Returned (Some userId) w1 →
  users w !! userId = Some d →
  ∃ w', handleSubscriptionDeleted stripe serverTime subscription w = Returned tt w'
        ∧ users w' =
            <[userId := {[ "subscriptionStatus" := VString "canceled";
                           "updatedAt" := VTimestamp (serverTime (length (commits w))) ]}
                        ∪ d]> (users w)
        ∧ commits w' =
            (commits w
             ++ [(userId, {[ "subscriptionStatus" := VString "canceled";
                             "updatedAt" := VTimestamp (serverTime (length (commits w))) ]})])%list.
Proof.
  intros E Hd. destruct (getUserIdFromCustomerId_store _ _ _ _ _ E) as [Hu Hc].
  unfold handleSubscriptionDeleted, mbind, Fn_bind. rewrite E.
  rewrite (doc_update_found _ _ _ d) by congruence.
  eexists; split; [reflexivity|]. simpl. rewrite Hu, Hc.
  by rewrite fmap_insert, map_fmap_singleton.
Qed.

Lemma handlePaymentFailed_resolved
    (invoice : Invoice) (w w1 : World) (userId : string) (d : Doc) :
  getUserIdFromCustomerId stripe (invoice_customer invoice) w
    = Returned (Some userId) w1 →
  users w !! userId = Some d →
  ∃ w', handlePaymentFailed stripe serverTime invoice w = Returned tt w'
        ∧ users w' =
            <[userId := {[ "subscriptionStatus" := VString "past_due";
                           "updatedAt" := VTimestamp (serverTime (length (commits w))) ]}
                        ∪ d]> (users w)
        ∧ commits w' =
            (commits w
             ++ [(userId, {[ "subscriptionStatus" := VString "past_due";
                             "updatedAt" := VTimestamp (serverTime (length (commits w))) ]})])%list.
Proof.
  intros E Hd. destruct (getUserIdFromCustomerId_store _ _ _ _ _ E) as [Hu Hc].
  unfold handlePaymentFailed, mbind, Fn_bind. rewrite E.
  rewrite (doc_update_found _ _ _ d) by congruence.
  eexists; split; [reflexivity|]. simpl. rewrite Hu, Hc.
  by rewrite fmap_insert, map_fmap_singleton.
Qed.

(** The fields [handleSubscriptionUpdated] writes first, for a tier and
    a commit time. *)
Lemma handleSubscriptionUpdated_resolved
    (subscription : Subscription) (w w1 : World) (userId priceId : string)
    (items : list string) (d : Doc) :
  getUserIdFromCustomerId stripe (sub_customer subscription) w
    = Returned (Some userId) w1 →
  sub_items subscription = priceId :: items →
  users w !! userId = Some d →
  let tier := (getTierFromPriceId priceId).1 in
  let first : Doc :=
    {[ "subscriptionTier" := VString tier;
       "subscriptionStatus" := VString (sub_status subscription);
       "currentPeriodStart" := fromSeconds (current_period_start subscription);
       "currentPeriodEnd" := fromSeconds (current_period_end subscription);
       "updatedAt" := VTimestamp (serverTime (length (commits w))) ]} in
  let second : Doc :=
    {[ "limits" := VLimits (default basicLimits (tierConfig !! tier));
       "updatedAt" := VTimestamp (serverTime (S (length (commits w)))) ]} in
  ∃ w', handleSubscriptionUpdated stripe serverTime subscription w = Returned tt w'
        ∧ users w' = <[userId := second ∪ (first ∪ d)]> (users w)
        ∧ commits w' = (commits w ++ [(userId, first); (userId, second)])%list.
Proof.
  intros E Hi Hd tier first second.
  destruct (getUserIdFromCustomerId_store _ _ _ _ _ E) as [Hu Hc].
  unfold handleSubscriptionUpdated, updateUserLimits, logged, defined, mbind,
    Fn_bind. rewrite E, Hi. simpl.
  erewrite doc_update_found by (simpl; rewrite Hu; exact Hd).
  erewrite doc_update_found by (simpl; apply lookup_insert_eq).
  eexists; split; [reflexivity|]. simpl.
  rewrite Hu, Hc, insert_insert_eq, length_app, Nat.add_1_r, <- app_assoc.
  by rewrite !fmap_insert, !map_fmap_singleton.
Qed.

End Handlers.

(** ** Cancellation and failed payment *)

Section Cancellation.

Variable stripe : Stripe.
Variable serverTime : nat → Z.

Lemma lookup_written (U d : Doc) (f : string) :
  U !! f = None → (U ∪ d) !! f = d !! f.
Proof. apply lookup_union_r. Qed.

(** C6: whatever the prior status of the record, a subscription-deleted
    event whose customer resolves to a user with a record sets that
    record's status to canceled and leaves its tier and limits, and every
    field other than the status and the last-write time, as they were;
    the other records are untouched. *)
Theorem subscription_deleted_sets_canceled
    (subscription : Subscription) (w w1 : World) (userId : string) (d : Doc) :
  getUserIdFromCustomerId stripe (sub_customer subscription) w
    = Returned (Some userId) w1 →
  users w !! userId = Some d →
  ∃ w' d',
    dispatch stripe serverTime (CustomerSubscriptionDeleted subscription) w
      = Returned tt w'
    ∧ users w' !! userId = Some d'
    ∧ d' !! "subscriptionStatus" = Some (VString SUBSCRIPTION_STATUS.CANCELED)
    ∧ d' !! "subscriptionTier" = d !! "subscriptionTier"
    ∧ d' !! "limits" = d !! "limits"
    ∧ (∀ f, f ≠ "subscriptionStatus" → f ≠ "updatedAt" → d' !! f = d !! f)
    ∧ (∀ other, other ≠ userId → users w' !! other = users w !! other).
Proof.
  intros E Hd.
  destruct (handleSubscriptionDeleted_resolved stripe serverTime _ _ _ _ _ E Hd)
    as (w' & Hrun & Hu & _).
  exists w'. eexists. split; [exact Hrun|]. rewrite Hu.
  split; [apply lookup_insert_eq|].
  assert (Hframe : ∀ f, f ≠ "subscriptionStatus" → f ≠ "updatedAt" →
    ({[ "subscriptionStatus" := VString "canceled";
        "updatedAt" := VTimestamp (serverTime (length (commits w))) ]} ∪ d) !! f
    = d !! f).
  { intros f H1 H2. apply lookup_written.
    rewrite lookup_insert_ne by done. by apply lookup_singleton_ne. }
  repeat split.
  - apply lookup_union_Some_l. apply lookup_insert_eq.
  - by apply Hframe.
  - by apply Hframe.
  - exact Hframe.
  - intros other Hne. by apply lookup_insert_ne.
Qed.

(** C7: for a record whose status is active, an invoice-payment-failed
    event whose customer resolves to that record's user sets the status to
    past_due and leaves the tier (and every field other than the status and
    the last-write time) unchanged. *)
Theorem payment_failed_sets_past_due
    (invoice : Invoice) (w w1 : World) (userId : string) (d : Doc) :
  getUserIdFromCustomerId stripe (invoice_customer invoice) w
    = Returned (Some userId) w1 →
  users w !! userId = Some d →
  d !! "subscriptionStatus" = Some (VString SUBSCRIPTION_STATUS.ACTIVE) →
  ∃ w' d',
    dispatch stripe serverTime (InvoicePaymentFailed invoice) w = Returned tt w'
    ∧ users w' !! userId = Some d'
    ∧ d' !! "subscriptionStatus" = Some (VString SUBSCRIPTION_STATUS.PAST_DUE)
    ∧ d' !! "subscriptionTier" = d !! "subscriptionTier"
    ∧ (∀ f, f ≠ "subscriptionStatus" → f ≠ "updatedAt" → d' !! f = d !! f).
Proof.
  intros E Hd _.
  destruct (handlePaymentFailed_resolved stripe serverTime _ _ _ _ _ E Hd)
    as (w' & Hrun & Hu & _).
  exists w'. eexists. split; [exact Hrun|]. rewrite Hu.
  split; [apply lookup_insert_eq|].
  assert (Hframe : ∀ f, f ≠ "subscriptionStatus" → f ≠ "updatedAt" →
    ({[ "subscriptionStatus" := VString "past_due";
        "updatedAt" := VTimestamp (serverTime (length (commits w))) ]} ∪ d) !! f
    = d !! f).
  { intros f H1 H2. apply lookup_written.
    rewrite lookup_insert_ne by done. by apply lookup_singleton_ne. }
  repeat split.
  - apply lookup_union_Some_l. apply lookup_insert_eq.
  - by apply Hframe.
  - exact Hframe.
Qed.

End Cancellation.

(** The record of [u3] is already canceled; it stays canceled, on the pro
    tier with the pro limits. *)
Lemma subscription_deleted_sets_canceled_witness :
  ∃ w' d',
    dispatch Demo.stripe Demo.clock
      (CustomerSubscriptionDeleted Demo.lapsedSubscription) Demo.world
    = Returned tt w'
    ∧ users w' !! "u3" = Some d'
    ∧ d' !! "subscriptionStatus" = Some (VString SUBSCRIPTION_STATUS.CANCELED)
    ∧ d' !! "subscriptionTier" = Demo.lapsed !! "subscriptionTier"
    ∧ d' !! "limits" = Demo.lapsed !! "limits"
    ∧ (∀ f, f ≠ "subscriptionStatus" → f ≠ "updatedAt" →
            d' !! f = Demo.lapsed !! f)
    ∧ (∀ other, other ≠ "u3" → users w' !! other = users Demo.world !! other).
Proof.
  apply (subscription_deleted_sets_canceled Demo.stripe Demo.clock
           Demo.lapsedSubscription Demo.world Demo.world "u3" Demo.lapsed);
    reflexivity.
Defined.

Lemma payment_failed_sets_past_due_witness :
  ∃ w' d',
    dispatch Demo.stripe Demo.clock (InvoicePaymentFailed Demo.invoice) Demo.world
    = Returned tt w'
    ∧ users w' !! "u1" = Some d'
    ∧ d' !! "subscriptionStatus" = Some (VString SUBSCRIPTION_STATUS.PAST_DUE)
    ∧ d' !! "subscriptionTier" = Demo.subscriber !! "subscriptionTier"
    ∧ (∀ f, f ≠ "subscriptionStatus" → f ≠ "updatedAt" →
            d' !! f = Demo.subscriber !! f).
Proof.
  apply (payment_failed_sets_past_due Demo.stripe Demo.clock Demo.invoice
           Demo.world Demo.world "u1" Demo.subscriber); reflexivity.
Defined.

(** ** The webhook endpoint *)

Section Endpoints.

Variable stripe : Stripe.
Variable webhook_secret : string.
Variable serverTime : nat → Z.

Lemma handler_unresolved_returns (event : Event) (w : World) :
  unresolved stripe event w →
  ∃ w', dispatch stripe serverTime event w = Returned tt w'
        ∧ users w' = users w ∧ commits w' = commits w.
Proof.
  destruct event as [session|subscription|subscription|invoice|invoice|ty];
    simpl; [intros (metadata & Hm & Hu) | intros [w1 E] .. | done].
  - 
    unfold handleCheckoutCompleted, defined, mbind, Fn_bind, mret, Fn_ret.
    rewrite Hm, Hu. simpl. eauto.
  - destruct (getUserIdFromCustomerId_store _ _ _ _ _ E) as [Hu Hc].
    unfold handleSubscriptionUpdated, mbind, Fn_bind. rewrite E. simpl. eauto.
  - destruct (getUserIdFromCustomerId_store _ _ _ _ _ E) as [Hu Hc].
    unfold handleSubscriptionDeleted, mbind, Fn_bind. rewrite E. simpl. eauto.
  - destruct (getUserIdFromCustomerId_store _ _ _ _ _ E) as [Hu Hc].
    unfold handlePaymentSucceeded, mbind, Fn_bind. rewrite E.
    unfold mret, Fn_ret. eauto.
  - destruct (getUserIdFromCustomerId_store _ _ _ _ _ E) as [Hu Hc].
    unfold handlePaymentFailed, mbind, Fn_bind. rewrite E.
    unfold mret, Fn_ret. eauto.
Qed.

(** C2: a call whose signature header fails verification against the raw
    body and the secret is answered 400 and writes nothing; the answer is
    fixed before the body is parsed, so it is the same whatever event the
    body would parse to. *)
Theorem webhook_rejects_invalid_signature (req : Request) (w : World) :
  verifyHeader stripe (rawBody req) (stripe_signature req) webhook_secret = false →
  let out := stripeWebhook stripe webhook_secret serverTime req w in
  status out.1 = 400
  ∧ users out.2 = users w
  ∧ commits out.2 = commits w
  ∧ ∀ parse : string → option Event,
      stripeWebhook (with_parseEvent stripe parse) webhook_secret serverTime req w
      = out.
Proof.
  intros H. unfold stripeWebhook, constructEvent. simpl. by rewrite H.
Qed.

(** C9: a call that verifies and parses to an event is answered 200 when
    the event's type is not one of the five handled, and when a handled
    event's user cannot be resolved; in both cases nothing is written.  The
    answer is 200 or 500, and it is 500 exactly when the handler throws. *)
Theorem webhook_accepts_verified_events
    (req : Request) (w : World) (event : Event) :
  constructEvent stripe (rawBody req) (stripe_signature req) webhook_secret
    = Some event →
  let out := stripeWebhook stripe webhook_secret serverTime req w in
  ((∃ type, event = OtherEvent type) →
     status out.1 = 200 ∧ users out.2 = users w ∧ commits out.2 = commits w)
  ∧ (unresolved stripe event w →
     status out.1 = 200 ∧ users out.2 = users w ∧ commits out.2 = commits w)
  ∧ (status out.1 = 200 ∨ status out.1 = 500)
  ∧ (status out.1 ≠ 200 ↔
     ∃ error w', dispatch stripe serverTime event w = Thrown error w').
Proof.
  intros H. unfold stripeWebhook. rewrite H. cbv zeta.
  split; [|split; [|split]].
  - by intros [type ->].
  - intros Hun.
    by destruct (handler_unresolved_returns event w Hun) as (w' & -> & ? & ?).
  - destruct (dispatch _ _ _ _); simpl; auto.
  - split.
    + destruct (dispatch _ _ _ _); simpl; [done | eauto].
    + by intros (error & w' & ->).
Qed.

End Endpoints.

Lemma webhook_rejects_invalid_signature_witness :
  status (stripeWebhook Demo.stripe Demo.secret Demo.clock
            Demo.forgedRequest Demo.world).1 = 400
  ∧ users (stripeWebhook Demo.stripe Demo.secret Demo.clock
             Demo.forgedRequest Demo.world).2 = users Demo.world
  ∧ commits (stripeWebhook Demo.stripe Demo.secret Demo.clock
               Demo.forgedRequest Demo.world).2 = commits Demo.world
  ∧ ∀ parse : string → option Event,
      stripeWebhook (with_parseEvent Demo.stripe parse) Demo.secret Demo.clock
        Demo.forgedRequest Demo.world
      = stripeWebhook Demo.stripe Demo.secret Demo.clock
          Demo.forgedRequest Demo.world.
Proof.
  apply (webhook_rejects_invalid_signature Demo.stripe Demo.secret Demo.clock
           Demo.forgedRequest Demo.world). reflexivity.
Defined.

Lemma webhook_accepts_verified_events_witness :
  ((∃ type, OtherEvent "customer.created" = OtherEvent type) →
     status (stripeWebhook Demo.stripe Demo.secret Demo.clock
               Demo.newKindRequest Demo.world).1 = 200
     ∧ users (stripeWebhook Demo.stripe Demo.secret Demo.clock
                Demo.newKindRequest Demo.world).2 = users Demo.world
     ∧ commits (stripeWebhook Demo.stripe Demo.secret Demo.clock
                  Demo.newKindRequest Demo.world).2 = commits Demo.world)
  ∧ (unresolved Demo.stripe (OtherEvent "customer.created") Demo.world →
     status (stripeWebhook Demo.stripe Demo.secret Demo.clock
               Demo.newKindRequest Demo.world).1 = 200
     ∧ users (stripeWebhook Demo.stripe Demo.secret Demo.clock
                Demo.newKindRequest Demo.world).2 = users Demo.world
     ∧ commits (stripeWebhook Demo.stripe Demo.secret Demo.clock
                  Demo.newKindRequest Demo.world).2 = commits Demo.world)
  ∧ (status (stripeWebhook Demo.stripe Demo.secret Demo.clock
               Demo.newKindRequest Demo.world).1 = 200
     ∨ status (stripeWebhook Demo.stripe Demo.secret Demo.clock
                 Demo.newKindRequest Demo.world).1 = 500)
  ∧ (status (stripeWebhook Demo.stripe Demo.secret Demo.clock
               Demo.newKindRequest Demo.world).1 ≠ 200 ↔
     ∃ error w', dispatch Demo.stripe Demo.clock (OtherEvent "customer.created")
                   Demo.world = Thrown error w').
Proof.
  apply (webhook_accepts_verified_events Demo.stripe Demo.secret Demo.clock
           Demo.newKindRequest Demo.world (OtherEvent "customer.created")).
  reflexivity.
Defined.

(** A subscription-updated event for a customer that neither the
    collection nor the provider knows is answered 200, and only logged. *)
Example webhook_drops_unknown_customer :
  (stripeWebhook Demo.stripe Demo.secret Demo.clock
     Demo.strayedRequest Demo.world).1
  = {| status := 200; body := "{received:true}" |}
  ∧ users (stripeWebhook Demo.stripe Demo.secret Demo.clock
             Demo.strayedRequest Demo.world).2 = users Demo.world
  ∧ commits (stripeWebhook Demo.stripe Demo.secret Demo.clock
               Demo.strayedRequest Demo.world).2 = []
  ∧ console (stripeWebhook Demo.stripe Demo.secret Demo.clock
               Demo.strayedRequest Demo.world).2
    = [(LogError, "Error retrieving customer from Stripe:");
       (LogError, "No userId found for customer: cus_9")].
Proof. repeat split; vm_compute; reflexivity. Qed.

(** ** The callable functions *)

Section Callables.

Variable stripe : Stripe.
Variable serverTime : nat → Z.

(** A body guarded by a handler that logs and rethrows as [internal]
    either returns or throws [internal]. *)
Lemma try_catch_rethrow {A} (body : Fn A) (line message : string) (w : World) :
  (∃ a w', try_catch body
             (λ error, console_log LogError line;;
                       throw (HttpsError internal message)) w = Returned a w')
  ∨ (∃ w', try_catch body
             (λ error, console_log LogError line;;
                       throw (HttpsError internal message)) w
           = Thrown (HttpsError internal message) w').
Proof.
  unfold try_catch. destruct (body w) as [a w'|e w']; [left|right]; eauto.
Qed.

(** C1 (what the code does instead): when the caller is authenticated,
    passes a return URL, and has no stored customer identifier, the
    failed-precondition error is thrown inside the function's own
    try block, caught by its handler, and replaced: the caller receives
    [internal]. *)
Theorem portal_without_customer_throws_internal
    (data : PortalData) (a : Auth) (w : World) :
  truthy (returnUrl data) = true →
  js_truthy (users w !! uid a ≫= (.!! "stripeCustomerId")) = false →
  ∃ w', createPortalSession stripe data {| auth := Some a |} w
        = Thrown (HttpsError internal "Failed to create portal session") w'
        ∧ users w' = users w ∧ commits w' = commits w.
Proof.
  intros Hurl Hcus. unfold createPortalSession. simpl. rewrite Hurl. simpl.
  unfold try_catch, doc_get, mbind, Fn_bind in *. simpl. rewrite Hcus.
  simpl. eauto.
Qed.


End Callables.

Lemma portal_without_customer_throws_internal_witness :
  ∃ w', createPortalSession Demo.stripe Demo.portalData (Demo.caller "u2")
          Demo.world
        = Thrown (HttpsError internal "Failed to create portal session") w'
        ∧ users w' = users Demo.world ∧ commits w' = commits Demo.world.
Proof.
  apply (portal_without_customer_throws_internal Demo.stripe Demo.portalData
           {| uid := "u2"; token_email := Some "x@example.com" |} Demo.world);
    reflexivity.
Defined.


(** ** Resolution depends only on the customer index *)

Lemma keys_forget {A} (m : gmap string A) :
  (map_to_list m).*1 = (map_to_list ((λ _, ()) <$> m)).*1.
Proof.
  rewrite map_to_list_fmap, <- list_fmap_compose.
  apply list_fmap_ext. by intros i [k x].
Qed.

Lemma where_customer_stable (v : FieldValue) (m m' : gmap string Doc) :
  customerIndex m = customerIndex m' →
  (map_to_list (filter (λ kd : string * Doc, kd.2 !! "stripeCustomerId" = Some v) m)).*1
  = (map_to_list (filter (λ kd : string * Doc, kd.2 !! "stripeCustomerId" = Some v) m')).*1.
Proof.
  intros H. rewrite (keys_forget (filter _ m)), (keys_forget (filter _ m')).
  f_equal. f_equal. apply map_eq. intros i.
  rewrite !lookup_fmap, !map_lookup_filter.
  assert (Hi : customerIndex m !! i = customerIndex m' !! i) by by rewrite H.
  unfold customerIndex in Hi. rewrite !lookup_fmap in Hi.
  destruct (m !! i) as [d|], (m' !! i) as [d'|]; simpl in *; try done.
  injection Hi as Hi. rewrite Hi.
  by repeat case_guard.
Qed.

Section Stability.

Variable stripe : Stripe.
Variable serverTime : nat → Z.

Lemma getUserIdFromCustomerId_stable (c : string) (w w' w1 : World) r :
  customerIndex (users w) = customerIndex (users w') →
  getUserIdFromCustomerId stripe c w = Returned r w1 →
  ∃ w1', getUserIdFromCustomerId stripe c w' = Returned r w1'.
Proof.
  intros Hidx. unfold getUserIdFromCustomerId, try_catch, users_where_limit1,
    stripe_call, console_log, throw, mbind, Fn_bind, mret, Fn_ret.
  rewrite (where_customer_stable _ _ _ Hidx).
  destruct (firstDocId _) as [id|]; [intros; simplify_eq; by eauto|].
  destruct (customers_retrieve stripe c) as [customer|]; simpl;
    [|intros; simplify_eq; by eauto].
  destruct (truthy _); intros; simplify_eq; by eauto.
Qed.

Lemma customerIndex_update (u : gmap string Doc) (id : string) (d d' : Doc) :
  u !! id = Some d →
  d' !! "stripeCustomerId" = d !! "stripeCustomerId" →
  customerIndex (<[id := d']> u) = customerIndex u.
Proof.
  intros Hd Hf. unfold customerIndex. rewrite fmap_insert.
  apply insert_id. by rewrite lookup_fmap, Hd, Hf.
Qed.

End Stability.

(** ** Applying a subscription update twice *)

Section Reapplication.

Variable stripe : Stripe.
Variable serverTime : nat → Z.

(** Two runs of writes that differ only in the last-write time leave the
    same document once that time is set aside. *)
Lemma rewrite_without_updatedAt (A A' B B' d : Doc) :
  (∀ f, f ≠ "updatedAt" → A' !! f = A !! f) →
  (∀ f, f ≠ "updatedAt" → B' !! f = B !! f) →
  without_updatedAt (B' ∪ (A' ∪ (B ∪ (A ∪ d)))) = without_updatedAt (B ∪ (A ∪ d)).
Proof.
  intros HA HB. apply map_eq. intros f. unfold without_updatedAt.
  destruct (decide (f = "updatedAt")) as [->|Hf].
  - by rewrite !lookup_delete_eq.
  - rewrite !lookup_delete_ne by done. rewrite !lookup_union.
    rewrite (HA f Hf), (HB f Hf).
    by destruct (A !! f), (B !! f), (d !! f).
Qed.

Lemma updated_fields_agree (tier status : string) (s e t t' : FieldValue)
    (f : string) :
  f ≠ "updatedAt" →
  ({[ "subscriptionTier" := VString tier; "subscriptionStatus" := VString status;
      "currentPeriodStart" := s; "currentPeriodEnd" := e;
      "updatedAt" := t' ]} : Doc) !! f
  = ({[ "subscriptionTier" := VString tier; "subscriptionStatus" := VString status;
        "currentPeriodStart" := s; "currentPeriodEnd" := e;
        "updatedAt" := t ]} : Doc) !! f.
Proof.
  intros Hf. rewrite !lookup_insert. repeat case_decide; try done.
  by rewrite !lookup_singleton_ne.
Qed.

Lemma limits_fields_agree (l t t' : FieldValue) (f : string) :
  f ≠ "updatedAt" →
  ({[ "limits" := l; "updatedAt" := t' ]} : Doc) !! f
  = ({[ "limits" := l; "updatedAt" := t ]} : Doc) !! f.
Proof.
  intros Hf. rewrite !lookup_insert. repeat case_decide; try done.
  by rewrite !lookup_singleton_ne.
Qed.

(** C8, amended: when a subscription-updated event has been applied,
    applying it again succeeds and leaves every record as the first
    application left it, except for the last-write time [updatedAt], which
    the second application sets anew. *)
Theorem subscription_updated_reapplied
    (subscription : Subscription) (w w1 : World) :
  handleSubscriptionUpdated stripe serverTime subscription w = Returned tt w1 →
  ∃ w2,
    handleSubscriptionUpdated stripe serverTime subscription w1 = Returned tt w2
    ∧ without_updatedAt <$> users w2 = without_updatedAt <$> users w1.
Proof.
  intros Hrun.
  destruct (getUserIdFromCustomerId_returns stripe (sub_customer subscription) w)
    as (r & wr & E & Hu & Hc).
  destruct r as [userId|].
  - (* resolved *)
    destruct (sub_items subscription) as [|priceId items] eqn:Hitems.
    { unfold handleSubscriptionUpdated, defined, mbind, Fn_bind in Hrun.
      rewrite E, Hitems in Hrun. discriminate. }
    destruct (users w !! userId) as [d|] eqn:Hd.
    2:{ unfold handleSubscriptionUpdated, logged, defined, mbind, Fn_bind in Hrun.
        rewrite E, Hitems in Hrun. simpl in Hrun.
        rewrite doc_update_missing in Hrun by (simpl; congruence).
        discriminate. }
    destruct (handleSubscriptionUpdated_resolved stripe serverTime
                _ _ _ _ _ _ _ E Hitems Hd) as (w1' & Hrun' & Hu1 & Hc1).
    rewrite Hrun in Hrun'. injection Hrun' as <-.
    assert (Hidx : customerIndex (users w) = customerIndex (users w1)).
    { rewrite Hu1. symmetry. apply (customerIndex_update _ _ d); [done|].
      rewrite lookup_union_r
        by by rewrite lookup_insert_ne, lookup_singleton_ne.
      apply lookup_union_r.
      rewrite !lookup_insert_ne by done. by rewrite lookup_singleton_ne. }
    destruct (getUserIdFromCustomerId_stable stripe _ _ _ _ _ Hidx E) as [wr' E'].
    assert (Hd1 : users w1 !! userId
                  = Some ({[ "limits" := VLimits (default basicLimits
                               (tierConfig !! (getTierFromPriceId priceId).1));
                             "updatedAt" := VTimestamp
                               (serverTime (S (length (commits w)))) ]}
                          ∪ ({[ "subscriptionTier" :=
                                  VString (getTierFromPriceId priceId).1;
                                "subscriptionStatus" :=
                                  VString (sub_status subscription);
                                "currentPeriodStart" :=
                                  fromSeconds (current_period_start subscription);
                                "currentPeriodEnd" :=
                                  fromSeconds (current_period_end subscription);
                                "updatedAt" := VTimestamp
                                  (serverTime (length (commits w))) ]} ∪ d))).
    { rewrite Hu1. apply lookup_insert_eq. }
    destruct (handleSubscriptionUpdated_resolved stripe serverTime
                _ _ _ _ _ _ _ E' Hitems Hd1) as (w2 & Hrun2 & Hu2 & _).
    exists w2. split; [exact Hrun2|].
    rewrite Hu2, Hu1. rewrite insert_insert_eq, !fmap_insert. f_equal.
    apply rewrite_without_updatedAt; intros f Hf.
    + by apply updated_fields_agree.
    + by apply limits_fields_agree.
  - (* not resolved: nothing is written, either time *)
    assert (Hw1 : users w1 = users w).
    { unfold handleSubscriptionUpdated, console_log, mbind, Fn_bind in Hrun.
      rewrite E in Hrun. injection Hrun as <-. simpl. exact Hu. }
    assert (Hidx : customerIndex (users w) = customerIndex (users w1))
      by by rewrite Hw1.
    destruct (getUserIdFromCustomerId_stable stripe _ _ _ _ _ Hidx E) as [wr' E'].
    destruct (getUserIdFromCustomerId_store stripe _ _ _ _ E') as [Hu' _].
    unfold handleSubscriptionUpdated, console_log, mbind, Fn_bind.
    rewrite E'. eexists. split; [reflexivity|]. simpl. by rewrite Hu'.
Qed.

End Reapplication.

Lemma subscription_updated_reapplied_witness :
  ∃ w2,
    handleSubscriptionUpdated Demo.stripe Demo.clock Demo.proSubscription
      (world_of (handleSubscriptionUpdated Demo.stripe Demo.clock
                   Demo.proSubscription Demo.world))
    = Returned tt w2
    ∧ without_updatedAt <$> users w2
      = without_updatedAt <$>
          users (world_of (handleSubscriptionUpdated Demo.stripe Demo.clock
                             Demo.proSubscription Demo.world)).
Proof.
  apply (subscription_updated_reapplied Demo.stripe Demo.clock
           Demo.proSubscription Demo.world). reflexivity.
Defined.

(** C8 as stated fails: the second application moves [updatedAt]. *)
Lemma subscription_updated_twice_differs :
  ∃ w1 w2,
    handleSubscriptionUpdated Demo.stripe Demo.clock Demo.proSubscription Demo.world
      = Returned tt w1
    ∧ handleSubscriptionUpdated Demo.stripe Demo.clock Demo.proSubscription w1
      = Returned tt w2
    ∧ users w1 !! "u1" ≫= (.!! "updatedAt") = Some (VTimestamp 1001)
    ∧ users w2 !! "u1" ≫= (.!! "updatedAt") = Some (VTimestamp 1003)
    ∧ users w2 ≠ users w1.
Proof.
  eexists _, _. split; [vm_compute; reflexivity|].
  split; [vm_compute; reflexivity|].
  split; [vm_compute; reflexivity|].
  split; [vm_compute; reflexivity|].
  intros H. apply (f_equal (λ u, u !! "u1" ≫= (.!! "updatedAt"))) in H.
  vm_compute in H. discriminate.
Qed.

(** ** What a handler writes *)

Section Writes.

Variable stripe : Stripe.
Variable serverTime : nat → Z.

Lemma bind_run {A B} (m : Fn A) (f : A → Fn B) (w : World) :
  (m ≫= f) w
  = match m w with
    | Returned a w' => f a w'
    | Thrown e w' => Thrown e w'
    end.
Proof. reflexivity. Qed.

(** A single update that touches neither the tier nor the limits. *)
Lemma single_update_writes (userId : string) (U : Doc) (w w0 : World) :
  users w0 = users w → commits w0 = commits w →
  U !! "subscriptionTier" = None → U !! "limits" = None →
  let w' := world_of (doc_update serverTime userId U w0) in
  wrote_nothing w w' ∨ wrote_once w w'.
Proof.
  intros Hu Hc Ht Hl. unfold doc_update. rewrite Hu, Hc.
  destruct (users w !! userId) as [d|] eqn:Hd; simpl; [right|by left].
  exists userId, d, (resolve (serverTime (length (commits w))) <$> U).
  by rewrite !lookup_fmap, Ht, Hl.
Qed.

(** The tier update followed by [updateUserLimits]. *)
Lemma double_update_writes (userId tier : string) (U : Doc) (w w0 : World) :
  users w0 = users w → commits w0 = commits w →
  (tier = "basic" ∨ tier = "pro") →
  U !! "subscriptionTier" = Some (VString tier) → U !! "limits" = None →
  let w' := world_of ((doc_update serverTime userId U
                       ≫= λ _, updateUserLimits serverTime userId tier) w0) in
  wrote_nothing w w' ∨ wrote_twice w w'.
Proof.
  intros Hu Hc Htier Ht Hl. rewrite bind_run.
  destruct (users w !! userId) as [d|] eqn:Hd.
  - right. rewrite (doc_update_found _ _ _ d) by congruence.
    unfold updateUserLimits.
    erewrite doc_update_found by (simpl; apply lookup_insert_eq).
    simpl. rewrite insert_insert_eq, <- app_assoc, Hu, Hc. simpl.
    exists userId, d, (resolve (serverTime (length (commits w))) <$> U).
    eexists. exists tier.
    split; [done|]. split; [done|].
    split; [by rewrite lookup_fmap, Ht|].
    split; [by rewrite lookup_fmap, Hl|].
    split; [|split; [|split; reflexivity]].
    + by rewrite fmap_insert, map_fmap_singleton, lookup_insert_ne,
        lookup_singleton_ne.
    + rewrite fmap_insert. apply lookup_insert_eq.
  - left. by rewrite doc_update_missing by congruence.
Qed.

Lemma handleCheckoutCompleted_writes (session : Session) (w : World) :
  let w' := world_of (handleCheckoutCompleted stripe serverTime session w) in
  wrote_nothing w w' ∨ wrote_twice w w'.
Proof.
  unfold handleCheckoutCompleted. rewrite bind_run.
  destruct (session_metadata session) as [metadata|]; [|by left].
  cbn [defined mret Fn_ret].
  destruct (truthy (metadata !! "userId")); cbn [negb]; [|by left].
  rewrite bind_run.
  destruct (subscriptions_retrieve stripe _) as [subscription|]; [|by left].
  cbn [stripe_call mret Fn_ret]. rewrite bind_run.
  destruct (sub_items subscription) as [|priceId items]; [by left|].
  cbn [head defined mret Fn_ret]. rewrite bind_run. cbn [logged].
  apply double_update_writes; try done.
  apply getTierFromPriceId_tiers.
Qed.

Lemma handleSubscriptionUpdated_writes (subscription : Subscription) (w : World) :
  let w' := world_of (handleSubscriptionUpdated stripe serverTime subscription w) in
  wrote_nothing w w' ∨ wrote_twice w w'.
Proof.
  unfold handleSubscriptionUpdated. rewrite bind_run.
  destruct (getUserIdFromCustomerId_returns stripe (sub_customer subscription) w)
    as (r & w1 & -> & Hu & Hc).
  destruct r as [userId|]; [|by left].
  rewrite bind_run.
  destruct (sub_items subscription) as [|priceId items]; [by left|].
  cbn [head defined mret Fn_ret]. rewrite bind_run. cbn [logged].
  apply double_update_writes; try done.
  apply getTierFromPriceId_tiers.
Qed.

Lemma handleSubscriptionDeleted_writes (subscription : Subscription) (w : World) :
  let w' := world_of (handleSubscriptionDeleted stripe serverTime subscription w) in
  wrote_nothing w w' ∨ wrote_once w w'.
Proof.
  unfold handleSubscriptionDeleted. rewrite bind_run.
  destruct (getUserIdFromCustomerId_returns stripe (sub_customer subscription) w)
    as (r & w1 & -> & Hu & Hc).
  destruct r as [userId|]; [|by left].
  by apply single_update_writes.
Qed.

Lemma handlePaymentSucceeded_writes (invoice : Invoice) (w : World) :
  let w' := world_of (handlePaymentSucceeded stripe serverTime invoice w) in
  wrote_nothing w w' ∨ wrote_once w w'.
Proof.
  unfold handlePaymentSucceeded. rewrite bind_run.
  destruct (getUserIdFromCustomerId_returns stripe (invoice_customer invoice) w)
    as (r & w1 & -> & Hu & Hc).
  destruct r as [userId|]; [|by left].
  destruct (truthy (invoice_subscription invoice)); [|by left].
  rewrite bind_run.
  destruct (subscriptions_retrieve stripe _) as [subscription|]; [|by left].
  cbn [stripe_call mret Fn_ret].
  by apply single_update_writes.
Qed.

Lemma handlePaymentFailed_writes (invoice : Invoice) (w : World) :
  let w' := world_of (handlePaymentFailed stripe serverTime invoice w) in
  wrote_nothing w w' ∨ wrote_once w w'.
Proof.
  unfold handlePaymentFailed. rewrite bind_run.
  destruct (getUserIdFromCustomerId_returns stripe (invoice_customer invoice) w)
    as (r & w1 & -> & Hu & Hc).
  destruct r as [userId|]; [|by left].
  by apply single_update_writes.
Qed.

(** Every event writes nothing, or once without touching tier and limits,
    or the tier and then its limits; which of these depends on its kind. *)
Lemma dispatch_writes (event : Event) (w : World) :
  let w' := world_of (dispatch stripe serverTime event w) in
  match event with
  | CheckoutSessionCompleted _ | CustomerSubscriptionUpdated _ =>
      wrote_nothing w w' ∨ wrote_twice w w'
  | _ => wrote_nothing w w' ∨ wrote_once w w'
  end.
Proof.
  destruct event; simpl.
  - apply handleCheckoutCompleted_writes.
  - apply handleSubscriptionUpdated_writes.
  - apply handleSubscriptionDeleted_writes.
  - apply handlePaymentSucceeded_writes.
  - apply handlePaymentFailed_writes.
  - by left.
Qed.

End Writes.

(** ** Limits and tier across a transition *)

Lemma new_commits_app (w w' : World) (cs : list (string * Doc)) :
  commits w' = (commits w ++ cs)%list → new_commits w w' = cs.
Proof. intros H. unfold new_commits. rewrite H. apply drop_app_length. Qed.

Lemma apply_commit_found (u : gmap string Doc) (userId : string) (U d : Doc) :
  u !! userId = Some d → apply_commit u (userId, U) = <[userId := U ∪ d]> u.
Proof.
  intros H. unfold apply_commit. simpl. apply map_eq. intros i.
  rewrite lookup_alter, lookup_insert. case_decide; [subst; by rewrite H | done].
Qed.

Lemma wrote_nothing_kept (env : ViteEnv) (w w' : World) :
  wrote_nothing w w' → limits_kept env w w' ∧ length (new_commits w w') = 0.
Proof.
  intros [Hu Hc].
  assert (Hn : new_commits w w' = []).
  { apply new_commits_app. by rewrite Hc, app_nil_r. }
  unfold limits_kept. rewrite Hn. repeat split.
  - intros userId d d' Hd Hd'. rewrite Hu in Hd'. by simplify_eq.
  - intros c d' Hin. by apply elem_of_nil in Hin.
  - intros i c Hi. by rewrite lookup_nil in Hi.
  - by rewrite Hu.
Qed.

Lemma wrote_once_kept (env : ViteEnv) (w w' : World) :
  wrote_once w w' → limits_kept env w w' ∧ length (new_commits w w') = 1.
Proof.
  intros (userId & d & U & Hd & Ht & Hl & Hu & Hc).
  unfold limits_kept. rewrite (new_commits_app _ _ _ Hc). repeat split.
  - intros i e e' He He' Hcons. rewrite Hu in He'.
    destruct (decide (i = userId)) as [->|Hne].
    + rewrite lookup_insert_eq in He'. simplify_eq.
      intros t. rewrite !lookup_union_r by done. apply Hcons.
    + rewrite lookup_insert_ne in He' by done. by simplify_eq.
  - intros c d' Hin [v Hv]. apply list_elem_of_singleton in Hin. subst c.
    simpl in Hv. congruence.
  - intros i c Hi [v Hv]. apply list_lookup_singleton_Some in Hi as [_ <-].
    simpl in Hv. congruence.
  - simpl. by rewrite (apply_commit_found _ _ _ d).
Qed.

Lemma wrote_twice_kept (env : ViteEnv) (w w' : World) :
  wrote_twice w w' → limits_kept env w w' ∧ length (new_commits w w') = 2.
Proof.
  intros (userId & d & U & L & t & Hd & Htier & HUt & HUl & HLt & HLl & Hu & Hc).
  unfold limits_kept. rewrite (new_commits_app _ _ _ Hc).
  assert (Hnew : limits_consistent env (L ∪ (U ∪ d))).
  { intros t'. rewrite lookup_union_r by done.
    rewrite (lookup_union_Some_l _ _ _ _ HUt). intros [= <-].
    rewrite (lookup_union_Some_l _ _ _ _ HLl).
    by rewrite (tierConfig_projects env). }
  repeat split.
  - intros i e e' He He' Hcons. rewrite Hu in He'.
    destruct (decide (i = userId)) as [->|Hne].
    + rewrite lookup_insert_eq in He'. by simplify_eq.
    + rewrite lookup_insert_ne in He' by done. by simplify_eq.
  - intros c d' Hin _ Hd'. rewrite Hu in Hd'.
    assert (c.1 = userId) as Hc1.
    { apply elem_of_cons in Hin as [->|Hin]; [done|].
      by apply list_elem_of_singleton in Hin as ->. }
    rewrite Hc1, lookup_insert_eq in Hd'. by simplify_eq.
  - intros i c Hi [v Hv]. destruct i as [|[|i]]; simpl in Hi; simplify_eq.
    + simpl in Hv. congruence.
    + exists 0, (userId, U), t. simpl. unfold writes_tier. simpl.
      rewrite HLl, (tierConfig_projects env). by repeat split.
  - simpl. rewrite (apply_commit_found (users w) userId U d) by done.
    rewrite (apply_commit_found _ _ _ (U ∪ d)) by apply lookup_insert_eq.
    by rewrite insert_insert_eq.
Qed.

Section Transitions.

Variable stripe : Stripe.
Variable serverTime : nat → Z.

(** C4, amended: for a webhook transition that runs to completion, a
    record whose limits were the projection of its tier before still has
    that property after, and a record whose tier the transition wrote has
    it in any case; the limits are written only in the write that directly
    follows a tier write to the same record, with that tier's projection;
    the collection after the transition is the collection before with the
    transition's writes applied in order; and checkout-completed and
    subscription-updated commit no write or two separate writes (the tier,
    then the limits), the other events at most one. *)
Theorem webhook_transition_limits
    (env : ViteEnv) (event : Event) (w w' : World) :
  dispatch stripe serverTime event w = Returned tt w' →
  limits_kept env w w'
  ∧ match event with
    | CheckoutSessionCompleted _ | CustomerSubscriptionUpdated _ =>
        length (new_commits w w') = 0 ∨ length (new_commits w w') = 2
    | _ => (length (new_commits w w') ≤ 1)%nat
    end.
Proof.
  intros Hrun. pose proof (dispatch_writes stripe serverTime event w) as H.
  rewrite Hrun in H. simpl in H.
  destruct event; destruct H as [H|H];
    first [ apply (wrote_nothing_kept env) in H
          | apply (wrote_once_kept env) in H
          | apply (wrote_twice_kept env) in H ];
    destruct H as [H ->]; auto.
Qed.


End Transitions.

Lemma webhook_transition_limits_witness :
  limits_kept Demo.env Demo.world
    (world_of (dispatch Demo.stripe Demo.clock
                 (CheckoutSessionCompleted Demo.checkoutSession) Demo.world))
  ∧ (length (new_commits Demo.world
               (world_of (dispatch Demo.stripe Demo.clock
                            (CheckoutSessionCompleted Demo.checkoutSession)
                            Demo.world))) = 0
     ∨ length (new_commits Demo.world
                 (world_of (dispatch Demo.stripe Demo.clock
                              (CheckoutSessionCompleted Demo.checkoutSession)
                              Demo.world))) = 2).
Proof.
  apply (webhook_transition_limits Demo.stripe Demo.clock Demo.env
           (CheckoutSessionCompleted Demo.checkoutSession) Demo.world).
  reflexivity.
Defined.

(** C4 as stated fails: checkout-completed for a user on the basic tier
    and a pro price commits two writes, and the collection after the first
    of them holds the pro tier with the basic limits. *)
Lemma checkout_completed_is_two_writes :
  ∃ w' c1 c2 between,
    dispatch Demo.stripe Demo.clock
      (CheckoutSessionCompleted Demo.checkoutSession) Demo.world
    = Returned tt w'
    ∧ new_commits Demo.world w' = [c1; c2]
    ∧ replay [c1] (users Demo.world) !! "u1" = Some between
    ∧ between !! "subscriptionTier" = Some (VString "pro")
    ∧ between !! "limits" = Some (VLimits basicLimits)
    ∧ getTierLimits Demo.env "pro" = proLimits
    ∧ ¬ limits_consistent Demo.env between.
Proof.
  eexists _, _, _, _.
  split; [vm_compute; reflexivity|].
  split; [vm_compute; reflexivity|].
  split; [vm_compute; reflexivity|].
  split; [vm_compute; reflexivity|].
  split; [vm_compute; reflexivity|].
  split; [reflexivity|].
  intros H. specialize (H "pro"). vm_compute in H.
  specialize (H eq_refl). discriminate.
Qed.

(** ** What a call may change *)

Lemma changes_only_same (u : string) (allowed : gset string) (w w' : World) :
  users w' = users w → changes_only u allowed w w'.
Proof.
  intros H. split; [by rewrite H|].
  intros id d' Hd'. rewrite H in Hd'. eauto.
Qed.

Section Frame.

Variable stripe : Stripe.
Variable serverTime : nat → Z.

Lemma changes_only_update (u : string) (allowed : gset string) (F : Doc)
    (w w0 : World) :
  changes_only u allowed w w0 →
  dom F ⊆ allowed →
  changes_only u allowed w (world_of (doc_update serverTime u F w0)).
Proof.
  intros [Hdom Hrec] HF. unfold doc_update.
  destruct (users w0 !! u) as [d0|] eqn:Hd0; unfold changes_only; simpl;
    [|by split].
  split.
  - rewrite dom_insert_L, <- Hdom.
    apply (elem_of_dom_2 (D:=gset string)) in Hd0.
    apply subseteq_union_1_L. by apply singleton_subseteq_l.
  - intros id d' Hd'.
    destruct (decide (id = u)) as [->|Hne].
    + rewrite lookup_insert_eq in Hd'. simplify_eq.
      destruct (Hrec u d0 Hd0) as (d & Hd & _ & Hf).
      exists d. split; [done|]. split; [done|].
      intros f Hin. rewrite lookup_union_r; [by apply Hf|].
      apply (not_elem_of_dom (D:=gset string)). rewrite dom_fmap_L.
      intros Hf'. apply Hin, HF, Hf'.
    + rewrite lookup_insert_ne in Hd' by done. by apply Hrec.
Qed.

End Frame.

Section FrameHandlers.

Variable stripe : Stripe.
Variable webhook_secret : string.
Variable serverTime : nat → Z.

Ltac billing_dom :=
  unfold billingFields;
  rewrite ?dom_insert_L, ?dom_singleton_L, ?dom_empty_L;
  apply (bool_decide_unpack _); vm_compute; exact I.

Lemma updateUserLimits_changes_only (u tier : string) (w w0 : World) :
  changes_only u billingFields w w0 →
  changes_only u billingFields w
    (world_of (updateUserLimits serverTime u tier w0)).
Proof.
  intros H. unfold updateUserLimits. apply changes_only_update; [done|].
  billing_dom.
Qed.

Lemma handleCheckoutCompleted_changes_only (session : Session) (w : World) :
  ∃ u, changes_only u billingFields w
         (world_of (handleCheckoutCompleted stripe serverTime session w)).
Proof.
  unfold handleCheckoutCompleted. rewrite bind_run.
  destruct (session_metadata session) as [metadata|];
    [|exists ""; by apply changes_only_same].
  cbn [defined mret Fn_ret]. exists (default "" (metadata !! "userId")).
  destruct (truthy (metadata !! "userId")); cbn [negb];
    [|by apply changes_only_same].
  rewrite bind_run.
  destruct (subscriptions_retrieve stripe _) as [subscription|];
    [|by apply changes_only_same].
  cbn [stripe_call mret Fn_ret]. rewrite bind_run.
  destruct (sub_items subscription) as [|priceId items];
    [by apply changes_only_same|].
  cbn [head defined mret Fn_ret]. rewrite bind_run. cbn [logged].
  rewrite bind_run.
  match goal with
  | |- context [doc_update serverTime ?u ?F ?w0] =>
      pose proof (changes_only_update serverTime u billingFields F w w0
                    (changes_only_same _ _ _ _ eq_refl)) as H;
      destruct (doc_update serverTime u F w0) as [[] w1|e w1]
  end.
  - apply updateUserLimits_changes_only. apply H. billing_dom.
  - apply H. billing_dom.
Qed.

Lemma handleSubscriptionUpdated_changes_only
    (subscription : Subscription) (w : World) :
  ∃ u, changes_only u billingFields w
         (world_of (handleSubscriptionUpdated stripe serverTime subscription w)).
Proof.
  unfold handleSubscriptionUpdated. rewrite bind_run.
  destruct (getUserIdFromCustomerId_returns stripe (sub_customer subscription) w)
    as (r & w1 & -> & Hu & Hc).
  destruct r as [userId|]; [|exists ""; by apply changes_only_same].
  exists userId. rewrite bind_run.
  destruct (sub_items subscription) as [|priceId items];
    [by apply changes_only_same|].
  cbn [head defined mret Fn_ret]. rewrite bind_run. cbn [logged].
  rewrite bind_run.
  match goal with
  | |- context [doc_update serverTime ?u ?F ?w0] =>
      pose proof (changes_only_update serverTime u billingFields F w w0
                    (changes_only_same _ _ _ _ Hu)) as H;
      destruct (doc_update serverTime u F w0) as [[] w2|e w2]
  end.
  - apply updateUserLimits_changes_only. apply H. billing_dom.
  - apply H. billing_dom.
Qed.

Lemma handleSubscriptionDeleted_changes_only
    (subscription : Subscription) (w : World) :
  ∃ u, changes_only u billingFields w
         (world_of (handleSubscriptionDeleted stripe serverTime subscription w)).
Proof.
  unfold handleSubscriptionDeleted. rewrite bind_run.
  destruct (getUserIdFromCustomerId_returns stripe (sub_customer subscription) w)
    as (r & w1 & -> & Hu & Hc).
  destruct r as [userId|]; [|exists ""; by apply changes_only_same].
  exists userId. apply changes_only_update; [by apply changes_only_same|].
  billing_dom.
Qed.

Lemma handlePaymentSucceeded_changes_only (invoice : Invoice) (w : World) :
  ∃ u, changes_only u billingFields w
         (world_of (handlePaymentSucceeded stripe serverTime invoice w)).
Proof.
  unfold handlePaymentSucceeded. rewrite bind_run.
  destruct (getUserIdFromCustomerId_returns stripe (invoice_customer invoice) w)
    as (r & w1 & -> & Hu & Hc).
  destruct r as [userId|]; [|exists ""; by apply changes_only_same].
  exists userId.
  destruct (truthy (invoice_subscription invoice)); [|by apply changes_only_same].
  rewrite bind_run.
  destruct (subscriptions_retrieve stripe _) as [subscription|];
    [|by apply changes_only_same].
  cbn [stripe_call mret Fn_ret].
  apply changes_only_update; [by apply changes_only_same|]. billing_dom.
Qed.

Lemma handlePaymentFailed_changes_only (invoice : Invoice) (w : World) :
  ∃ u, changes_only u billingFields w
         (world_of (handlePaymentFailed stripe serverTime invoice w)).
Proof.
  unfold handlePaymentFailed. rewrite bind_run.
  destruct (getUserIdFromCustomerId_returns stripe (invoice_customer invoice) w)
    as (r & w1 & -> & Hu & Hc).
  destruct r as [userId|]; [|exists ""; by apply changes_only_same].
  exists userId. apply changes_only_update; [by apply changes_only_same|].
  billing_dom.
Qed.

Lemma dispatch_changes_only (event : Event) (w : World) :
  ∃ u, changes_only u billingFields w
         (world_of (dispatch stripe serverTime event w)).
Proof.
  destruct event; simpl.
  - apply handleCheckoutCompleted_changes_only.
  - apply handleSubscriptionUpdated_changes_only.
  - apply handleSubscriptionDeleted_changes_only.
  - apply handlePaymentSucceeded_changes_only.
  - apply handlePaymentFailed_changes_only.
  - exists "". by apply changes_only_same.
Qed.

(** X1: whatever the request and however it is answered, the webhook
    endpoint creates and deletes no document, changes the document of at
    most one user, and changes it in none but the seven billing fields; in
    particular it never changes a stored customer identifier. *)
Theorem webhook_changes_one_record (req : Request) (w : World) :
  let w' := (stripeWebhook stripe webhook_secret serverTime req w).2 in
  dom (users w') = dom (users w)
  ∧ (∃ u, ∀ other, other ≠ u → users w' !! other = users w !! other)
  ∧ (∀ id d', users w' !! id = Some d' →
       ∃ d, users w !! id = Some d
            ∧ (∀ f, f ∉ billingFields → d' !! f = d !! f)
            ∧ d' !! "stripeCustomerId" = d !! "stripeCustomerId")
  ∧ customerIndex (users w') = customerIndex (users w).
Proof.
  assert (H : ∃ u, changes_only u billingFields w
                     (stripeWebhook stripe webhook_secret serverTime req w).2).
  { unfold stripeWebhook.
    destruct (constructEvent _ _ _ _) as [event|]; simpl;
      [|exists ""; by apply changes_only_same].
    destruct (dispatch_changes_only event w) as [u Hu]. exists u.
    destruct (dispatch stripe serverTime event w) as [[] w1|e w1]; simpl in *;
      destruct Hu as [Hdom Hrec]; split; done. }
  destruct H as (u & Hdom & Hrec). cbv zeta.
  split; [done|]. split; [|split].
  - exists u. intros other Hne.
    destruct (users _ !! other) as [d'|] eqn:Hd'.
    + destruct (Hrec other d' Hd') as (d & Hd & Heq & _). by rewrite Heq.
    + apply (not_elem_of_dom (D:=gset string)) in Hd'. rewrite Hdom in Hd'.
      by apply (not_elem_of_dom (D:=gset string)) in Hd'.
  - intros id d' Hd'. destruct (Hrec id d' Hd') as (d & Hd & _ & Hf).
    exists d. split; [done|]. split; [done|]. apply Hf.
    apply (bool_decide_unpack _); vm_compute; exact I.
  - apply map_eq. intros id. unfold customerIndex. rewrite !lookup_fmap.
    destruct (users _ !! id) as [d'|] eqn:Hd'.
    + destruct (Hrec id d' Hd') as (d & -> & _ & Hf). simpl. f_equal.
      apply Hf. apply (bool_decide_unpack _); vm_compute; exact I.
    + apply (not_elem_of_dom (D:=gset string)) in Hd'. rewrite Hdom in Hd'.
      apply (not_elem_of_dom (D:=gset string)) in Hd'. by rewrite Hd'.
Qed.

End FrameHandlers.

Section FrameCallables.

Variable stripe : Stripe.
Variable serverTime : nat → Z.

(** X2: an authenticated call to [createCheckoutSession] changes nothing but
    the caller's own [stripeCustomerId], in at most one write, and writes
    nothing at all when a customer identifier is already stored.  When it
    returns, the caller's document holds a customer identifier, and the
    session returned is the one the provider opened in subscription mode
    for that customer, the given price and URLs, tagged with the caller's
    own user id. *)
Theorem checkout_session_find_or_create
    (data : CheckoutData) (a : Auth) (w : World) :
  let out := createCheckoutSession stripe serverTime data {| auth := Some a |} w in
  changes_only (uid a) {[ "stripeCustomerId" ]} w (world_of out)
  ∧ (length (new_commits w (world_of out)) ≤ 1)%nat
  ∧ (js_truthy (users w !! uid a ≫= (.!! "stripeCustomerId")) = true →
     users (world_of out) = users w ∧ commits (world_of out) = commits w)
  ∧ (∀ r w', out = Returned r w' →
       ∃ d' customer session,
         users w' !! uid a = Some d'
         ∧ d' !! "stripeCustomerId" = Some customer
         ∧ checkout_sessions_create stripe
             {| cp_customer := customer;
                cp_mode := "subscription";
                cp_price := default "" (priceId data);
                cp_success_url := default "" (successUrl data);
                cp_cancel_url := default "" (cancelUrl data);
                cp_metadata_userId := uid a |} = Some session
         ∧ r = {| sessionId := cs_id session; url := cs_url session |}).
Proof.
  cbv zeta. unfold createCheckoutSession. cbn [auth].
  destruct (negb (truthy (priceId data)) || negb (truthy (successUrl data))
            || negb (truthy (cancelUrl data))).
  { unfold throw, new_commits. simpl. rewrite drop_all.
    split; [by apply changes_only_same|]. repeat split; try done. simpl. lia. }
  unfold try_catch. rewrite bind_run. unfold doc_get.
  destruct (users w !! uid a) as [d|] eqn:Hd; cbn [mbind option_bind].
  - destruct (js_truthy (d !! "stripeCustomerId")) eqn:Hstored; cbn [negb].
    + (* a customer is stored: it is used as it is *)
      rewrite bind_run. cbn [mret Fn_ret]. rewrite bind_run.
      assert (is_Some (d !! "stripeCustomerId")) as [customer Hc].
      { destruct (d !! "stripeCustomerId"); [eauto | done]. }
      rewrite Hc. cbn [default].
      destruct (checkout_sessions_create stripe _) as [session|] eqn:Hs;
        cbn [stripe_call mret Fn_ret throw world_of console_log mbind Fn_bind];
        unfold new_commits; simpl; rewrite drop_all;
        (split; [by apply changes_only_same|]);
        (split; [simpl; lia|]); (split; [done|]).
      * intros r w' [= <- <-]. exists d, customer, session. by rewrite Hd.
      * by intros r w'.
    + (* none is stored: one is created and written *)
      rewrite bind_run. rewrite bind_run.
      destruct (customers_create stripe (token_email a) (uid a)) as [id|] eqn:Hid;
        cbn [stripe_call mret Fn_ret throw].
      2:{ cbn [world_of console_log mbind Fn_bind]. unfold new_commits. simpl.
          rewrite drop_all. split; [by apply changes_only_same|].
          repeat split; try done. simpl. lia. }
      rewrite bind_run. rewrite (doc_update_found serverTime _ _ d) by done.
      cbn [mret Fn_ret]. rewrite bind_run.
      rewrite map_fmap_singleton. cbn [resolve].
      assert (Hframe : changes_only (uid a) {[ "stripeCustomerId" ]} w
                {| users := <[uid a := {[ "stripeCustomerId" := VString id ]} ∪ d]>
                              (users w);
                   commits := (commits w
                     ++ [(uid a, {[ "stripeCustomerId" := VString id ]})])%list;
                   console := console w |}).
      { pose proof (changes_only_update serverTime (uid a)
                      {[ "stripeCustomerId" ]}
                      {[ "stripeCustomerId" := VString id ]} w w
                      (changes_only_same _ _ _ _ eq_refl)) as H.
        rewrite (doc_update_found serverTime _ _ d) in H by done.
        rewrite map_fmap_singleton in H. cbn [resolve world_of] in H.
        apply H. by rewrite dom_singleton_L. }
      destruct (checkout_sessions_create stripe _) as [session|] eqn:Hs;
        cbn [stripe_call mret Fn_ret throw world_of console_log mbind Fn_bind];
        unfold new_commits; simpl; rewrite drop_app_length;
        (split; [destruct Hframe; by split|]);
        (split; [simpl; lia|]); (split; [done|]).
      * intros r w' [= <- <-]. simpl.
        exists ({[ "stripeCustomerId" := VString id ]} ∪ d), (VString id), session.
        rewrite lookup_insert_eq.
        by rewrite (lookup_union_Some_l _ _ _ (VString id))
          by apply lookup_singleton_eq.
      * by intros r w'.
  - (* no document: the customer is created, the write fails *)
    cbn [js_truthy negb]. rewrite bind_run. rewrite bind_run.
    destruct (customers_create stripe (token_email a) (uid a)) as [id|] eqn:Hid;
      cbn [stripe_call mret Fn_ret throw].
    + rewrite bind_run. rewrite doc_update_missing by done.
      cbn [world_of console_log mbind Fn_bind]. unfold new_commits. simpl.
      rewrite drop_all. split; [by apply changes_only_same|].
      repeat split; try done. simpl. lia.
    + cbn [world_of console_log mbind Fn_bind]. unfold new_commits. simpl.
      rewrite drop_all. split; [by apply changes_only_same|].
      repeat split; try done. simpl. lia.
Qed.

End FrameCallables.

Section CallableOutcomes.

Variable stripe : Stripe.
Variable serverTime : nat → Z.

(** X3: [createPortalSession] never writes.  It returns only for an
    authenticated caller who passes a return URL and has a customer
    identifier stored, and then returns the URL of the session the provider
    opened for that customer and return URL. *)
Theorem portal_session_reads_only
    (data : PortalData) (context : CallableContext) (w : World) :
  let out := createPortalSession stripe data context w in
  users (world_of out) = users w
  ∧ commits (world_of out) = commits w
  ∧ (∀ url w', out = Returned url w' →
       ∃ a customer,
         auth context = Some a
         ∧ truthy (returnUrl data) = true
         ∧ users w !! uid a ≫= (.!! "stripeCustomerId") = Some customer
         ∧ js_truthy (Some customer) = true
         ∧ billingPortal_sessions_create stripe customer
             (default "" (returnUrl data)) = Some url).
Proof.
  cbv zeta. unfold createPortalSession.
  destruct (auth context) as [a|]; [|by repeat split].
  destruct (truthy (returnUrl data)) eqn:Hurl; cbn [negb]; [|by repeat split].
  unfold try_catch. rewrite bind_run. unfold doc_get. cbv beta zeta.
  destruct (users w !! uid a ≫= (.!! "stripeCustomerId")) as [customer|] eqn:Hc.
  - destruct (js_truthy (Some customer)) eqn:Ht; cbn [negb];
      [|by repeat split].
    rewrite bind_run. unfold default at 1. cbn [from_option id].
    destruct (billingPortal_sessions_create stripe customer _) as [url|] eqn:Hp;
      cbn [stripe_call mret Fn_ret throw]; [|by repeat split].
    repeat split; try done.
    intros url' w' [= <- <-]. by exists a, customer.
  - by repeat split.
Qed.


End CallableOutcomes.

(** ** Resolving the user of a customer *)



Section Resolver.

Variable stripe : Stripe.


End Resolver.

(** ** Checkout completion, plan change and renewal *)

Section Lifecycle.

Variable stripe : Stripe.
Variable serverTime : nat → Z.






End Lifecycle.

(** ** Applying any event twice *)

Section Redelivery.

Variable stripe : Stripe.
Variable serverTime : nat → Z.













End Redelivery.

(** ** The catalogue and the access checks *)




(** X12: when neither price variable of the environment is set, the price
    identifier the catalogue gives for basic or pro is derived back to that
    tier by the webhook's tier derivation, without a warning. *)
Theorem default_price_round_trip (env : ViteEnv) (t : string) :
  truthy (VITE_STRIPE_PRICE_BASIC_MONTHLY env) = false →
  truthy (VITE_STRIPE_PRICE_PRO_MONTHLY env) = false →
  t = SUBSCRIPTION_TIERS.BASIC ∨ t = SUBSCRIPTION_TIERS.PRO →
  ∃ monthly,
    pricing (getTierConfig env t) = Monthly monthly
    ∧ getTierFromPriceId (stripePriceId monthly) = (t, []).
Proof.
  intros Hb Hp Ht.
  assert (Hor : ∀ v d, truthy v = false → js_or v d = d).
  { intros [s|] d; simpl; [|done]. by destruct (String.eqb s ""). }
  destruct Ht as [-> | ->]; eexists; (split; [reflexivity|]); simpl;
    rewrite Hor by done; reflexivity.
Qed.

(** A pro price configured through the environment that neither is in
    the webhook's table nor contains a tier name is derived to basic. *)
Example configured_price_derives_basic :
  ∃ monthly,
    pricing (getTierConfig
               {| VITE_STRIPE_PRICE_BASIC_MONTHLY := Some "price_1OaBcD";
                  VITE_STRIPE_PRICE_PRO_MONTHLY := Some "price_1OeFgH" |}
               SUBSCRIPTION_TIERS.PRO) = Monthly monthly
    ∧ (getTierFromPriceId (stripePriceId monthly)).1 = SUBSCRIPTION_TIERS.BASIC.
Proof. eexists. split; reflexivity. Qed.

(** A subscription counts as active exactly when its status is active, or
    it is trialing with a trial end that is present, not zero and still
    ahead. *)
Lemma isSubscriptionActive_iff (now : Z) (status : string) (trialEndsAt : option Z) :
  isSubscriptionActive now status trialEndsAt = true
  ↔ status = SUBSCRIPTION_STATUS.ACTIVE
    ∨ (status = SUBSCRIPTION_STATUS.TRIALING
       ∧ ∃ t, trialEndsAt = Some t ∧ t ≠ 0%Z ∧ (now < t)%Z).
Proof.
  unfold isSubscriptionActive.
  destruct (String.eqb_spec status SUBSCRIPTION_STATUS.ACTIVE) as [->|Ha].
  { split; auto. }
  destruct (String.eqb_spec status SUBSCRIPTION_STATUS.TRIALING) as [->|Ht]; simpl.
  - destruct trialEndsAt as [t|]; simpl.
    + destruct (Z.eqb_spec t 0) as [->|H0]; simpl.
      * split; [done|]. intros [?|(_ & t & [= <-] & ? & _)]; done.
      * rewrite Z.ltb_lt. split; [intros; right; eauto|].
        intros [?|(_ & t' & [= <-] & _ & ?)]; done.
    + split; [done|]. intros [?|(_ & t & ? & _)]; done.
  - split; [done|]. intros [?|[? _]]; done.
Qed.

(** ** Access after an event *)

Section Access.

Variable stripe : Stripe.
Variable serverTime : nat → Z.

(** X13: after a subscription-deleted or an invoice-payment-failed event for
    a customer that resolves to a user with a record, the status stored in
    that record no longer counts as active, at any time and whatever trial
    end the record carries. *)
Theorem lapsed_record_is_inactive
    (event : Event) (customer : string) (w w1 : World) (userId : string) (d : Doc) :
  (∃ subscription, event = CustomerSubscriptionDeleted subscription
                   ∧ customer = sub_customer subscription)
  ∨ (∃ invoice, event = InvoicePaymentFailed invoice
                ∧ customer = invoice_customer invoice) →
  getUserIdFromCustomerId stripe customer w = Returned (Some userId) w1 →
  users w !! userId = Some d →
  ∃ w' d' status,
    dispatch stripe serverTime event w = Returned tt w'
    ∧ users w' !! userId = Some d'
    ∧ d' !! "subscriptionStatus" = Some (VString status)
    ∧ ∀ now trialEndsAt, isSubscriptionActive now status trialEndsAt = false.
Proof.
  intros [(subscription & -> & ->)|(invoice & -> & ->)] E Hd; simpl.
  - destruct (handleSubscriptionDeleted_resolved stripe serverTime _ _ _ _ _ E Hd)
      as (w' & Hrun & Hu & _).
    exists w'. eexists. exists "canceled". split; [done|]. rewrite Hu.
    split; [apply lookup_insert_eq|]. split; [|done].
    by apply lookup_union_Some_l.
  - destruct (handlePaymentFailed_resolved stripe serverTime _ _ _ _ _ E Hd)
      as (w' & Hrun & Hu & _).
    exists w'. eexists. exists "past_due". split; [done|]. rewrite Hu.
    split; [apply lookup_insert_eq|]. split; [|done].
    by apply lookup_union_Some_l.
Qed.

End Access.

(** ** Signing up *)

Lemma planConfig_entry (env : ViteEnv) (plan : string) :
  SignupPage.planConfig env plan
  = Some (if String.eqb (SignupPage.validPlan plan) "basic"
          then basicEntry env else proEntry env).
Proof.
  unfold SignupPage.planConfig. by destruct (String.eqb _ "basic").
Qed.


Lemma js_or_nonempty (v : option string) (d : string) :
  d ≠ "" → js_or v d ≠ "".
Proof.
  intros Hd. destruct v as [s|]; simpl; [|done].
  by destruct (String.eqb_spec s "").
Qed.


(** The price a submission sends to checkout is not empty. *)
Lemma signup_submission_price
    (env : ViteEnv) (createUser : string → string →
                                  SignupPage.AuthError + SignupPage.AuthUser)
    (trialEnd : Z) (form : SignupPage.Form) (doc : SignupPage.UserDoc)
    (price : string) :
  SignupPage.handleSubmit env createUser trialEnd form
  = SignupPage.WriteAndRedirect doc price →
  price ≠ "".
Proof.
  unfold SignupPage.handleSubmit. rewrite planConfig_entry.
  destruct (_ <? _)%nat; [done|]. destruct (negb _); [done|].
  destruct (String.eqb (SignupPage.validPlan _) "basic");
    cbn [pricing basicEntry proEntry stripePriceId];
    (destruct (negb (truthy _)); [done|]);
    (destruct (createUser _ _); [done|]);
    intros [= _ <-]; by apply js_or_nonempty.
Qed.

(** ** The client of the callable functions *)

Lemma append_nonempty (s t : string) : t ≠ "" → s ++ t ≠ "".
Proof.
  intros Ht. destruct s as [|a s]; [done|]. by rewrite append_cons.
Qed.

Lemma checkoutRequest_urls (origin : string) (priceId : option string) :
  truthy (successUrl (StripeService.checkoutRequest origin priceId)) = true
  ∧ truthy (cancelUrl (StripeService.checkoutRequest origin priceId)) = true.
Proof.
  split; simpl; apply negb_true_iff, String.eqb_neq; by apply append_nonempty.
Qed.

Section Client.

Variable stripe : Stripe.
Variable serverTime : nat → Z.

(** X15: for the request the client builds, whatever the page's origin,
    [createCheckoutSession] fails with invalid-argument exactly when the
    price identifier is missing or empty: the two URLs are never missing.
    With a price identifier it returns a session or fails with internal. *)
Theorem client_checkout_request
    (origin : string) (price : option string) (a : Auth) (w : World) :
  ((∃ message w',
      createCheckoutSession stripe serverTime
        (StripeService.checkoutRequest origin price) {| auth := Some a |} w
      = Thrown (HttpsError invalid_argument message) w')
   ↔ truthy price = false)
  ∧ (truthy price = true →
     (∃ r w',
        createCheckoutSession stripe serverTime
          (StripeService.checkoutRequest origin price) {| auth := Some a |} w
        = Returned r w')
     ∨ (∃ w',
          createCheckoutSession stripe serverTime
            (StripeService.checkoutRequest origin price) {| auth := Some a |} w
          = Thrown (HttpsError internal "Failed to create checkout session") w')).
Proof.
  destruct (checkoutRequest_urls origin price) as [Hs Hc].
  unfold createCheckoutSession. cbn [auth]. rewrite Hs, Hc.
  cbn [StripeService.checkoutRequest priceId negb orb].
  destruct (truthy price); cbn [negb orb].
  - match goal with
    | |- context [try_catch ?b _ w] =>
        destruct (try_catch_rethrow b "Error creating checkout session:"
                    "Failed to create checkout session" w)
          as [(r & w'' & E)|(w'' & E)]
    end; rewrite E.
    + split; [split; [by intros (? & ? & ?) | done] | intros _; left; eauto].
    + split; [split; [by intros (? & ? & ?) | done] | intros _; right; eauto].
  - split; [split; [done | intros _; unfold throw; eauto] | done].
Qed.

(** X16: the price a signup submission sends to checkout is never refused as
    an invalid argument: for the request the client builds from it, an
    authenticated call returns a session or fails with internal. *)
Theorem signup_price_reaches_provider
    (env : ViteEnv) (createUser : string → string →
                                  SignupPage.AuthError + SignupPage.AuthUser)
    (trialEnd : Z) (form : SignupPage.Form) (doc : SignupPage.UserDoc)
    (price origin : string) (a : Auth) (w : World) :
  SignupPage.handleSubmit env createUser trialEnd form
  = SignupPage.WriteAndRedirect doc price →
  (∃ r w',
     createCheckoutSession stripe serverTime
       (StripeService.checkoutRequest origin (Some price)) {| auth := Some a |} w
     = Returned r w')
  ∨ (∃ w',
       createCheckoutSession stripe serverTime
         (StripeService.checkoutRequest origin (Some price)) {| auth := Some a |} w
       = Thrown (HttpsError internal "Failed to create checkout session") w').
Proof.
  intros Hsubmit.
  assert (Hprice : truthy (Some price) = true).
  { pose proof (signup_submission_price env createUser trialEnd form doc price
                  Hsubmit) as Hne.
    simpl. by apply negb_true_iff, String.eqb_neq. }
  destruct (checkoutRequest_urls origin (Some price)) as [Hs Hc].
  unfold createCheckoutSession. cbn [auth]. rewrite Hs, Hc.
  cbn [StripeService.checkoutRequest priceId]. rewrite Hprice.
  cbn [negb orb].
  match goal with
  | |- context [try_catch ?b _ w] =>
      destruct (try_catch_rethrow b "Error creating checkout session:"
                  "Failed to create checkout session" w)
        as [(r & w'' & E)|(w'' & E)]
  end; rewrite E; [left | right]; eauto.
Qed.

End Client.

(** X17: a client wrapper returns a URL only when the callable replied with
    that URL, and never an empty one; an error whose code is none of
    unauthenticated, permission-denied and unavailable (so
    failed-precondition, internal, or an error with no code) reaches the
    caller of the wrapper as it is; and a reply without a URL becomes the
    error "Invalid response from server", which passes through the
    wrapper's own handler unchanged. *)
Theorem client_wrappers
    (createCheckout : CheckoutData →
                      StripeService.ClientError + option StripeService.ReplyData)
    (createPortal : PortalData →
                    StripeService.ClientError + option StripeService.ReplyData)
    (origin : string) (price back : option string) :
  (∀ url,
     StripeService.createCheckoutSession createCheckout origin price = inr url →
     url ≠ ""
     ∧ createCheckout (StripeService.checkoutRequest origin price)
       = inr (Some {| StripeService.reply_url := Some url |}))
  ∧ (∀ url,
       StripeService.createPortalSession createPortal back = inr url →
       url ≠ ""
       ∧ createPortal {| returnUrl := back |}
         = inr (Some {| StripeService.reply_url := Some url |}))
  ∧ (∀ error,
       createCheckout (StripeService.checkoutRequest origin price) = inl error →
       StripeService.createCheckoutSession createCheckout origin price
       = inl (StripeService.rethrow error))
  ∧ (∀ error,
       createPortal {| returnUrl := back |} = inl error →
       StripeService.createPortalSession createPortal back
       = inl (StripeService.rethrow error))
  ∧ (∀ code message,
       code ≠ "functions/unauthenticated" →
       code ≠ "functions/permission-denied" →
       code ≠ "functions/unavailable" →
       StripeService.rethrow (StripeService.CodedError code message)
       = StripeService.CodedError code message)
  ∧ (∀ message,
       StripeService.rethrow (StripeService.PlainError message)
       = StripeService.PlainError message)
  ∧ (∀ data, (∀ url, StripeService.urlOf data ≠ inr url) →
       StripeService.urlOf data
       = inl (StripeService.PlainError "Invalid response from server")).
Proof.
  assert (Hurl : ∀ data url, StripeService.urlOf data = inr url →
            url ≠ "" ∧ data = Some {| StripeService.reply_url := Some url |}).
  { intros [[[u|]]|] url; simpl; try done.
    destruct (String.eqb_spec u ""); simpl; [done|]. by intros [= <-]. }
  split; [|split; [|split; [|split; [|split; [|split]]]]].
  - intros url. unfold StripeService.createCheckoutSession.
    destruct (createCheckout _) as [e|data]; [done|].
    intros H. destruct (Hurl _ _ H) as [? ->]. done.
  - intros url. unfold StripeService.createPortalSession.
    destruct (createPortal _) as [e|data]; [done|].
    intros H. destruct (Hurl _ _ H) as [? ->]. done.
  - intros error H. unfold StripeService.createCheckoutSession. by rewrite H.
  - intros error H. unfold StripeService.createPortalSession. by rewrite H.
  - intros code message H1 H2 H3. simpl.
    by destruct (String.eqb_spec code "functions/unauthenticated"),
      (String.eqb_spec code "functions/permission-denied"),
      (String.eqb_spec code "functions/unavailable").
  - done.
  - intros [[[u|]]|] H; simpl in *; try done.
    destruct (String.eqb_spec u ""); simpl in *; [done|]. by destruct (H u).
Qed.

(** ** The properties on the sample data *)





Lemma default_price_round_trip_witness :
  ∃ monthly,
    pricing (getTierConfig Demo.env SUBSCRIPTION_TIERS.PRO) = Monthly monthly
    ∧ getTierFromPriceId (stripePriceId monthly) = (SUBSCRIPTION_TIERS.PRO, []).
Proof.
  apply (default_price_round_trip Demo.env SUBSCRIPTION_TIERS.PRO);
    [reflexivity | reflexivity | by right].
Defined.

Lemma lapsed_record_is_inactive_witness :
  ∃ w' d' status,
    dispatch Demo.stripe Demo.clock (InvoicePaymentFailed Demo.invoice) Demo.world
    = Returned tt w'
    ∧ users w' !! "u1" = Some d'
    ∧ d' !! "subscriptionStatus" = Some (VString status)
    ∧ ∀ now trialEndsAt, isSubscriptionActive now status trialEndsAt = false.
Proof.
  apply (lapsed_record_is_inactive Demo.stripe Demo.clock
           (InvoicePaymentFailed Demo.invoice) "cus_1" Demo.world Demo.world
           "u1" Demo.subscriber);
    [right; by exists Demo.invoice | reflexivity | reflexivity].
Defined.

(** Enterprise cannot be chosen at signup: the submission goes on with the
    pro tier and the pro price. *)
Example signup_with_enterprise_selected :
  ∃ doc,
    SignupPage.handleSubmit Demo.env Demo.createUser 1702592000000 Demo.signupForm
    = SignupPage.WriteAndRedirect doc "price_pro_monthly"
    ∧ SignupPage.subscriptionTier doc = "pro"
    ∧ SignupPage.doc_limits doc = proLimits.
Proof. eexists. repeat split. Qed.

Lemma signup_price_reaches_provider_witness :
  (∃ r w',
     createCheckoutSession Demo.stripe Demo.clock
       (StripeService.checkoutRequest "https://app.example.com"
          (Some "price_pro_monthly")) (Demo.caller "u2") Demo.world
     = Returned r w')
  ∨ (∃ w',
       createCheckoutSession Demo.stripe Demo.clock
         (StripeService.checkoutRequest "https://app.example.com"
            (Some "price_pro_monthly")) (Demo.caller "u2") Demo.world
       = Thrown (HttpsError internal "Failed to create checkout session") w').
Proof.
  apply (signup_price_reaches_provider Demo.stripe Demo.clock Demo.env
           Demo.createUser 1702592000000 Demo.signupForm
           {| SignupPage.userId := "u4";
              SignupPage.doc_email := Some "d@example.com";
              SignupPage.createdAt := ServerTimestamp;
              SignupPage.subscriptionTier := "pro";
              SignupPage.subscriptionStatus := "trialing";
              SignupPage.trialStartedAt := ServerTimestamp;
              SignupPage.trialEndsAt := 1702592000000;
              SignupPage.doc_limits := proLimits;
              SignupPage.usage_extinguisherCount := 0;
              SignupPage.usage_lastUpdated := ServerTimestamp;
              SignupPage.lastLoginAt := ServerTimestamp;
              SignupPage.updatedAt := ServerTimestamp |}
           "price_pro_monthly" "https://app.example.com"
           {| uid := "u2"; token_email := Some "x@example.com" |} Demo.world).
  reflexivity.
Defined.

(** A first checkout by a user without a customer: the provider's new
    customer is stored in the user's document, and nothing else changes. *)
Example checkout_creates_customer :
  ∃ w',
    createCheckoutSession Demo.stripe Demo.clock
      (StripeService.checkoutRequest "https://app.example.com"
         (Some "price_pro_monthly")) (Demo.caller "u2") Demo.world
    = Returned {| sessionId := "cs_1"; url := "https://checkout/cs_1" |} w'
    ∧ users w' !! "u2" ≫= (.!! "stripeCustomerId") = Some (VString "cus_new")
    ∧ commits w' = [("u2", {[ "stripeCustomerId" := VString "cus_new" ]})].
Proof. eexists. vm_compute. repeat split. Qed.
